(** * build-qt: the two-phase Qt6 build driver and the commit-hash pin

    A shallow embedding of [build_qt/commit_hash_fetcher.py] and
    [build_qt/qt6_build.py].  Python objects that live outside the two
    modules (the operating system, child processes, the [Config] object, the
    archive helper) are parameters of the model; the methods themselves are
    transcribed statement by statement into a small state-and-exception
    monad over an explicit world. *)

From Stdlib Require Import ZArith Ascii String.
From stdpp Require Import base option list gmap strings pretty.

Open Scope string_scope.
Open Scope list_scope.

(** ** Python [str] helpers

    A Python [str] is modelled as a Rocq [string]; a character stands for a
    code point below 256. *)

Module PyStr.

(** [str.isspace] on one code point below 256: TAB, LF, VT, FF, CR, the
    four separators 0x1c-0x1f, SPACE, NEL (0x85) and NBSP (0xa0). *)
Definition isspace (c : ascii) : bool :=
  let n := nat_of_ascii c in
  (((9 <=? n) && (n <=? 13)) || ((28 <=? n) && (n <=? 32))
   || (n =? 133) || (n =? 160))%nat.

(** ['0'..'9'] or ['a'..'f']. *)
Definition is_lower_hex (c : ascii) : bool :=
  let n := nat_of_ascii c in
  (((48 <=? n) && (n <=? 57)) || ((97 <=? n) && (n <=? 102)))%nat.

Fixpoint all_chars (p : ascii -> bool) (s : string) : bool :=
  match s with
  | EmptyString => true
  | String c s' => p c && all_chars p s'
  end.

(** Truthiness of a [str]: the empty string is false. *)
Definition truthy (s : string) : bool :=
  match s with EmptyString => false | String _ _ => true end.

Fixpoint lstrip (s : string) : string :=
  match s with
  | EmptyString => EmptyString
  | String c s' => if isspace c then lstrip s' else s
  end.

Fixpoint rstrip (s : string) : string :=
  match s with
  | EmptyString => EmptyString
  | String c s' =>
      match rstrip s' with
      | EmptyString => if isspace c then EmptyString else String c EmptyString
      | r => String c r
      end
  end.

(** [s.strip()] *)
Definition strip (s : string) : string := rstrip (lstrip s).

(** [s.split(sep)[0]]: the text before the first [sep], all of [s] when
    [sep] does not occur. *)
Fixpoint split_head (sep : ascii) (s : string) : string :=
  match s with
  | EmptyString => EmptyString
  | String c s' =>
      if Ascii.eqb c sep then EmptyString else String c (split_head sep s')
  end.

Definition LF : ascii := ascii_of_nat 10.
Definition TAB : ascii := ascii_of_nat 9.
Definition CR : ascii := ascii_of_nat 13.
Definition newline : string := String LF EmptyString.

(** What reading in text mode does to line ends (universal newlines): a
    carriage return followed by a line feed, and a carriage return alone,
    are both read as one line feed. *)
Fixpoint universal_newlines (s : string) : string :=
  match s with
  | EmptyString => EmptyString
  | String c s' =>
      if Ascii.eqb c CR then
        String LF
          match s' with
          | EmptyString => EmptyString
          | String c' s'' =>
              if Ascii.eqb c' LF then universal_newlines s''
              else universal_newlines s'
          end
      else String c (universal_newlines s')
  end.

End PyStr.

(** ** Exceptions and results *)

Inductive Exn : Type :=
  | CommitHashFetcherError (msg : string)
  | TimeoutExpired
  | CalledProcessError (returncode : Z) (cmd : list string) (stderr : string)
  | FileNotFoundError (path : list string)
  | IsADirectoryError (path : list string)
  | SameFileError (path : list string)
  | IOError (path : list string)
  | TypeError
  | ValueError
  | RuntimeError
  | EnvironmentError
  | OtherError (msg : string).

(** [str(e)] for the exceptions whose text the fetcher re-wraps. *)
Definition exn_str (e : Exn) : string :=
  match e with
  | CommitHashFetcherError msg => msg
  | OtherError msg => msg
  | _ => ""
  end.

Inductive result (A : Type) : Type :=
  | Ok (a : A)
  | Raise (e : Exn).
Arguments Ok {A} a.
Arguments Raise {A} e.

(** ** The world the two modules act on

    A path is the list of its components, so that [os.path.join(p, c)] with a
    relative component [c] is [p ++ [c]] and the empty path [[]] stands for
    the empty string (the only falsy path). *)

Abbreviation Path := (list string).

Definition path_str (p : Path) : string := String.concat "/" p.

(** [platform.system()]; only the three names of [supported_systems] are
    accepted by the constructor. *)
Definition os_pathsep (system : string) : string :=
  if String.eqb system "Windows" then ";" else ":".

Inductive Stage : Type :=
  | HostConfigure | HostBuild | HostInstall
  | CrossConfigure | CrossBuild | CrossInstall.

(** What the methods [print]: one constructor per message, carrying the
    values the format string is filled with. *)
Inductive Message : Type :=
  | MsgCmakeOnPath (p : Path)
  | MsgWarnNoSdkCmake (p : Path)
  | MsgMingwOnPath (p : Path)
  | MsgDllCopied (dll : string) (target : Path)
  | MsgWarnDllMissing (src_dll : Path)
  | MsgBanner (s : Stage)
  | MsgCommand (s : Stage) (cmd : list string)
  | MsgCmakePath (cmake : string)
  | MsgBuildDir (dir : Path)
  | MsgSucceeded (s : Stage)
  | MsgInstallDir (prefix : option Path)
  | MsgOpensslCopied (so : string)
  | MsgOpensslMissing (so : string)
  | MsgRemoving (dir : Path)
  | MsgRemoved
  | MsgUsingSystemCmake (cmake : string)
  | MsgHashUpdated (file : Path) (hash : string).

(** Every side effect leaves one entry in the log, in program order. *)
Inductive Event : Type :=
  | EvPrint (m : Message)
  | EvRun (s : Stage) (cmd : list string) (cwd : Path)
  | EvMakedirs (p : Path)
  | EvCopy (src dst : Path)
  | EvRmtree (p : Path)
  | EvWrite (p : Path) (content : string)
  | EvPutenvPath (value : string)
  | EvArchive (src dst : Path) (fmt : string).

(** The file system: directories, regular files with their text, and the
    faults the code reacts to: a file that [open] refuses for reading or
    for writing, a tree whose removal fails.  The text of a file is kept
    with plain line feeds, and is taken to be text the platform can encode
    and decode. *)
Record Fs : Type := mkFs {
  dirs : gset Path;
  files : gmap Path string;
  unreadable : gset Path;
  unwritable : gset Path;
  undeletable : gset Path
}.

Record World : Type := mkWorld {
  fs : Fs;
  environ_PATH : option string;   (* os.environ.get('PATH') *)
  log : list Event
}.

Definition with_fs (w : World) (f : Fs) : World :=
  mkWorld f (environ_PATH w) (log w).
Definition with_PATH (w : World) (v : string) : World :=
  mkWorld (fs w) (Some v) (log w).
Definition logged (w : World) (e : Event) : World :=
  mkWorld (fs w) (environ_PATH w) (log w ++ [e]).

Definition with_dirs (f : Fs) (d : gset Path) : Fs :=
  mkFs d (files f) (unreadable f) (unwritable f) (undeletable f).
Definition with_files (f : Fs) (m : gmap Path string) : Fs :=
  mkFs (dirs f) m (unreadable f) (unwritable f) (undeletable f).

(** [os.path.isdir], [os.path.isfile], [os.path.exists] *)
Definition isdir (f : Fs) (p : Path) : bool := bool_decide (p ∈ dirs f).
Definition isfile (f : Fs) (p : Path) : bool :=
  match files f !! p with Some _ => true | None => false end.
Definition path_exists (f : Fs) (p : Path) : bool := isdir f p || isfile f p.

(** The non-empty prefixes of a path: the path and its ancestors. *)
Fixpoint ancestors (p : Path) : list Path :=
  match p with
  | [] => []
  | c :: q => [c] :: map (cons c) (ancestors q)
  end.

(** ** The monad: state passing with exceptions *)

Definition M (A : Type) : Type := World -> result A * World.

Definition ret {A} (a : A) : M A := fun w => (Ok a, w).
Definition raise {A} (e : Exn) : M A := fun w => (Raise e, w).
Definition bind {A B} (m : M A) (k : A -> M B) : M B :=
  fun w => match m w with
           | (Ok a, w') => k a w'
           | (Raise e, w') => (Raise e, w')
           end.

(** [try: m except <handled exceptions>: h] *)
Definition try_except {A} (m : M A) (h : Exn -> option (M A)) : M A :=
  fun w => match m w with
           | (Ok a, w') => (Ok a, w')
           | (Raise e, w') =>
               match h e with
               | Some k => k w'
               | None => (Raise e, w')
               end
           end.

Global Instance M_ret : MRet M := @ret.
Global Instance M_bind : MBind M := fun A B k m => bind m k.

Definition get_world : M World := fun w => (Ok w, w).
Definition emit (e : Event) : M unit := fun w => (Ok tt, logged w e).
Definition print (m : Message) : M unit := emit (EvPrint m).

(** [for x in xs: body(x)] *)
Fixpoint for_each {A} (xs : list A) (body : A -> M unit) : M unit :=
  match xs with
  | [] => ret tt
  | x :: rest => body x ;; for_each rest body
  end.

(** ** Operating-system primitives *)

(** [os.makedirs(p)]: creates [p] and the ancestors that are missing; the
    empty path is refused.  The tree is taken to be well formed and
    writable: a regular file in the place of an ancestor, or a directory
    that refuses the creation, is outside the model. *)
Definition os_makedirs (p : Path) : M unit :=
  fun w =>
    match p with
    | [] => (Raise (FileNotFoundError []), w)
    | _ :: _ =>
        (Ok tt,
         logged
           (with_fs w
              (with_dirs (fs w) (dirs (fs w) ∪ list_to_set (ancestors p))))
           (EvMakedirs p))
    end.

(** [shutil.copy(src, dst)]: a destination that is a directory receives the
    file under the source's base name; the source must be a regular file
    and differ from the destination.  Only these three refusals are
    modelled; the faults of [open] above concern the pin file and play no
    part here. *)
Definition copy_target (f : Fs) (src dst : Path) : Path :=
  if isdir f dst then dst ++ [List.last src ""] else dst.

Definition shutil_copy (src dst : Path) : M unit :=
  fun w =>
    let w1 := logged w (EvCopy src dst) in
    match files (fs w) !! src with
    | None =>
        (Raise (if isdir (fs w) src then IsADirectoryError src
                else FileNotFoundError src), w1)
    | Some text =>
        let target := copy_target (fs w) src dst in
        if bool_decide (src = target) then (Raise (SameFileError src), w1)
        else (Ok tt, with_fs w1 (with_files (fs w) (<[target := text]> (files (fs w)))))
    end.

(** [shutil.rmtree(p, ignore_errors=True)]: removes [p] with everything
    below it; when the removal fails the error is swallowed and the tree
    stays. *)
Definition below (p q : Path) : bool := bool_decide (p `prefix_of` q).

Definition shutil_rmtree_ignore_errors (p : Path) : M unit :=
  fun w =>
    let w1 := logged w (EvRmtree p) in
    if isdir (fs w) p && negb (bool_decide (p ∈ undeletable (fs w))) then
      (Ok tt,
       with_fs w1
         (with_files
            (with_dirs (fs w) (filter (fun q => below p q = false) (dirs (fs w))))
            (filter (fun kv => below p (fst kv) = false) (files (fs w)))))
    else (Ok tt, w1).

(** The directory a file is created in exists: the path has a last
    component, and what precedes it is empty (the current directory) or a
    directory. *)
Definition parent_exists (f : Fs) (p : Path) : bool :=
  match p with
  | [] => false
  | _ :: _ =>
      match removelast p with
      | [] => true
      | parent => isdir f parent
      end
  end.

(** [open(p, 'w')] is refused: by a fault, because [p] is a directory, or
    because the directory of [p] is missing. *)
Definition open_for_writing_fails (f : Fs) (p : Path) : bool :=
  bool_decide (p ∈ unwritable f) || isdir f p || negb (parent_exists f p).

(** [with open(p, 'w') as f: f.write(text)]: a refused [open] raises and
    leaves the file as it was; once the file is open the write is taken to
    go through. *)
Definition write_text (p : Path) (text : string) : M unit :=
  fun w =>
    if open_for_writing_fails (fs w) p
    then (Raise (IOError p), w)
    else (Ok tt,
          logged (with_fs w (with_files (fs w) (<[p := text]> (files (fs w)))))
                 (EvWrite p text)).

(** [with open(p, 'r') as f: f.read()]: the text comes back with its line
    ends translated. *)
Definition read_text (p : Path) : M string :=
  fun w =>
    match files (fs w) !! p with
    | Some text =>
        if bool_decide (p ∈ unreadable (fs w)) then (Raise (IOError p), w)
        else (Ok (PyStr.universal_newlines text), w)
    | None => (Raise (IOError p), w)
    end.

(** ** commit_hash_fetcher.py *)

(** How [subprocess.run(cmd, check=True, capture_output=True, text=True,
    timeout=30)] can end. *)
Inductive GitResult : Type :=
  | GitCompleted (stdout : string)
  | GitTimedOut
  | GitExited (returncode : Z) (stderr : string)
  | GitNotStarted (msg : string).

Record CommitHashFetcher : Type := mkFetcher {
  repo_url : string;
  commit_hash_file : Path;
  git_exe : string
}.

(** The test of line 70, [not commit_hash or len(commit_hash) != 40], under
    which the fetched value is refused. *)
Definition rejects_hash (commit_hash : string) : bool :=
  negb (PyStr.truthy commit_hash) || negb (String.length commit_hash =? 40)%nat.

Definition is_valid_hash (commit_hash : string) : bool :=
  negb (rejects_hash commit_hash).

(** The format of the specification: forty lowercase hexadecimal
    characters. *)
Definition spec_is_valid_hash (s : string) : bool :=
  (String.length s =? 40)%nat && PyStr.all_chars PyStr.is_lower_hex s.

(** Lines 62-68 without the checks: the first tab-separated field of the
    first line of the stripped output, stripped. *)
Definition extract_hash (stdout : string) : string :=
  PyStr.strip (PyStr.split_head PyStr.TAB
                 (PyStr.split_head PyStr.LF (PyStr.strip stdout))).

Section Fetcher.

(** The remote end: what [git ls-remote] answers to a command line. *)
Variable git_ls_remote : list string -> GitResult.

Definition subprocess_run_git (cmd : list string) : M string :=
  match git_ls_remote cmd with
  | GitCompleted stdout => ret stdout
  | GitTimedOut => raise TimeoutExpired
  | GitExited rc stderr => raise (CalledProcessError rc cmd stderr)
  | GitNotStarted msg => raise (OtherError msg)
  end.

Definition fetch_latest_commit_hash (self : CommitHashFetcher) (branch : string)
  : M string :=
  try_except
    (let cmd := [git_exe self; "ls-remote"; repo_url self; branch] in
     stdout ← subprocess_run_git cmd;
     let output := PyStr.strip stdout in
     if negb (PyStr.truthy output) then
       raise (CommitHashFetcherError
                ("No output from git ls-remote for " +:+ repo_url self))
     else
       let first_line := PyStr.split_head PyStr.LF output in
       let commit_hash := PyStr.strip (PyStr.split_head PyStr.TAB first_line) in
       if rejects_hash commit_hash then
         raise (CommitHashFetcherError
                  ("Invalid commit hash format: " +:+ commit_hash))
       else ret commit_hash)
    (fun e =>
       Some (match e with
             | TimeoutExpired =>
                 raise (CommitHashFetcherError
                          ("Timeout while fetching commit hash from "
                             +:+ repo_url self))
             | CalledProcessError _ _ stderr =>
                 raise (CommitHashFetcherError
                          ("Failed to fetch commit hash from " +:+ repo_url self
                             +:+ ": " +:+ stderr))
             | _ =>
                 raise (CommitHashFetcherError
                          ("Error fetching commit hash: " +:+ exn_str e))
             end)).

Definition update_commit_hash_file (self : CommitHashFetcher)
    (commit_hash : option string) : M string :=
  commit_hash ← match commit_hash with
                | None => fetch_latest_commit_hash self "HEAD"
                | Some h => ret h
                end;
  try_except
    (write_text (commit_hash_file self) (commit_hash +:+ PyStr.newline);;
     print (MsgHashUpdated (commit_hash_file self) commit_hash);;
     ret commit_hash)
    (fun e =>
       match e with
       | IOError _ =>
           Some (raise (CommitHashFetcherError
                          ("Failed to write to "
                             +:+ path_str (commit_hash_file self))))
       | _ => None
       end).

Definition read_commit_hash_file (self : CommitHashFetcher)
  : M (option string) :=
  w ← get_world;
  if negb (path_exists (fs w) (commit_hash_file self)) then ret None
  else
    try_except
      (text ← read_text (commit_hash_file self);
       let content := PyStr.strip text in
       ret (if PyStr.truthy content then Some content else None))
      (fun e =>
         match e with
         | IOError _ => Some (ret None)
         | _ => None
         end).

End Fetcher.

(** ** qt6_build.py *)

(** The [Config] object, an opaque provider of named values: one field per
    accessor the class calls.  Accessors that may return [None] are
    options. *)
Record Config : Type := mkConfig {
  path_ohos_sdk : Path;                       (* get_path('ohos_sdk') *)
  path_openssl : Path;                        (* get_path('openssl') *)
  build_tool_mingw : option Path;             (* get_build_tool_path('mingw') *)
  build_type : string;
  build_host_configure_options : list string;
  build_cross_configure_options : list string;
  build_host_prefix : Path;
  build_prefix : option Path;
  openssl_runtime : bool;
  qt_version : string;
  ohos_version : string;
  build_ohos_abi : string;
  get_output_path : Path
}.

Record Qt6Build : Type := mkQt6Build {
  source_dir : Path;
  config : Config;
  system : string;
  cmake_cmd : Path;
  host_build_dir : Path;
  cross_build_dir : Path
}.

(** What lies outside the class: child processes (command line, working
    directory, search path and file system in; exit code and file system
    out), the archive helper of [utils], the clock, the platform name and
    [shutil.which('cmake')]. *)
Record Outside : Type := mkOutside {
  exec : list string -> Path -> option string -> Fs -> Z * Fs;
  create_archive : Path -> Path -> string -> Fs -> result unit * Fs;
  now_stamp : string;                         (* strftime("%Y%m%d%H%M") *)
  platform_system : string;
  which_cmake : option Path
}.

Definition supported_systems : list string := ["Windows"; "Linux"; "Darwin"].

Definition dll_deps : list string :=
  ["libstdc++-6.dll"; "libgcc_s_seh-1.dll"; "libwinpthread-1.dll"].

Definition openssl_sos : list string :=
  ["libcrypto.so"; "libcrypto.so.1.1"; "libssl.so"; "libssl.so.1.1"].

(** [os.path.join(base, name)] where [base] may be [None]. *)
Definition os_path_join_opt (base : option Path) (name : string) : M Path :=
  match base with
  | Some p => ret (p ++ [name])
  | None => raise TypeError
  end.

(** Truthiness of an optional path: [None] and [''] are false. *)
Definition path_truthy (p : option Path) : bool :=
  match p with
  | Some (_ :: _) => true
  | _ => false
  end.

Definition lower_char (c : ascii) : ascii :=
  let n := nat_of_ascii c in
  if ((65 <=? n) && (n <=? 90))%nat then ascii_of_nat (n + 32) else c.

Fixpoint str_lower (s : string) : string :=
  match s with
  | EmptyString => EmptyString
  | String c s' => String (lower_char c) (str_lower s')
  end.

Definition putenv_PATH (value : string) : M unit :=
  fun w => (Ok tt, logged (with_PATH w value) (EvPutenvPath value)).

Definition stage_calls (l : list Event) : list Stage :=
  omap (fun e => match e with EvRun s _ _ => Some s | _ => None end) l.

Section Build.

Variable outside : Outside.

(** [subprocess.run(cmd, cwd=cwd, check=True)]: a missing working
    directory prevents the start; a non-zero exit raises.  The program
    itself is taken to be there and executable: a process that cannot be
    started for another reason is outside the model. *)
Definition subprocess_run (s : Stage) (cmd : list string) (cwd : Path) : M Z :=
  fun w =>
    if negb (isdir (fs w) cwd) then (Raise (FileNotFoundError cwd), w)
    else
      let '(returncode, f) := exec outside cmd cwd (environ_PATH w) (fs w) in
      let w' := logged (with_fs w f) (EvRun s cmd cwd) in
      if (returncode =? 0)%Z then (Ok returncode, w')
      else (Raise (CalledProcessError returncode cmd ""), w').

Definition sdk_cmake_bin (cfg : Config) : Path :=
  path_ohos_sdk cfg ++ ["native"; "build-tools"; "cmake"; "bin"].

Definition ensure_dir (p : Path) : M unit :=
  w ← get_world;
  if negb (path_exists (fs w) p) then os_makedirs p else ret tt.

(** [Qt6Build.__init__] *)
Definition Qt6Build_init (source_dir : Path) (config : Config) : M Qt6Build :=
  let system := platform_system outside in
  if negb (bool_decide (system ∈ supported_systems)) then raise EnvironmentError
  else
    let cmake_bin_path := sdk_cmake_bin config in
    let sdk_cmake :=
      cmake_bin_path
        ++ [if String.eqb system "Windows" then "cmake.exe" else "cmake"] in
    w ← get_world;
    cmake_cmd ←
      (if negb (isfile (fs w) sdk_cmake) then
         let system_cmake := which_cmake outside in
         match system_cmake with
         | Some (c :: cs) =>
             print (MsgUsingSystemCmake (path_str (c :: cs)));; ret (c :: cs)
         | _ => raise EnvironmentError
         end
       else ret sdk_cmake);
    let host_build_dir := source_dir ++ ["build"; "host"] in
    let cross_build_dir := source_dir ++ ["build"; build_type config] in
    ensure_dir host_build_dir;;
    ensure_dir cross_build_dir;;
    ret (mkQt6Build source_dir config system cmake_cmd
           host_build_dir cross_build_dir).

Definition setup_environment (self : Qt6Build) : M unit :=
  let cmake_bin_path := sdk_cmake_bin (config self) in
  w ← get_world;
  (if isdir (fs w) cmake_bin_path then
     putenv_PATH (path_str cmake_bin_path +:+ os_pathsep (system self)
                    +:+ default "" (environ_PATH w));;
     print (MsgCmakeOnPath cmake_bin_path)
   else print (MsgWarnNoSdkCmake cmake_bin_path));;
  let mingw_path := build_tool_mingw (config self) in
  w ← get_world;
  match mingw_path with
  | Some p =>
      if path_truthy mingw_path && isdir (fs w) p then
        putenv_PATH (path_str p +:+ os_pathsep (system self)
                       +:+ default "" (environ_PATH w));;
        print (MsgMingwOnPath p)
      else ret tt
  | None => ret tt
  end.

(** The body of [copy_mingw_dlls], for any dependency list and source. *)
Definition copy_one_dll (mingw_bin : option Path) (target_bin_dir : Path)
    (dll_dep : string) : M unit :=
  src_dll ← os_path_join_opt mingw_bin dll_dep;
  let dst_dll := target_bin_dir ++ [dll_dep] in
  w ← get_world;
  if path_exists (fs w) src_dll then
    shutil_copy src_dll dst_dll;;
    print (MsgDllCopied dll_dep target_bin_dir)
  else print (MsgWarnDllMissing src_dll).

Definition copy_dlls (mingw_bin : option Path) (deps : list string)
    (target_bin_dir : Path) : M unit :=
  ensure_dir target_bin_dir;;
  for_each deps (copy_one_dll mingw_bin target_bin_dir).

Definition copy_mingw_dlls (self : Qt6Build) (target_bin_dir : Path) : M unit :=
  let mingw_bin := build_tool_mingw (config self) in
  copy_dlls mingw_bin dll_deps target_bin_dir.

Definition configure_script (self : Qt6Build) : Path :=
  source_dir self
    ++ [if String.eqb (system self) "Windows" then "configure.bat"
        else "configure"].

Definition configure_host (self : Qt6Build) : M unit :=
  print (MsgBanner HostConfigure);;
  setup_environment self;;
  let cmd := [path_str (configure_script self)]
               ++ build_host_configure_options (config self) in
  print (MsgCommand HostConfigure cmd);;
  returncode ← subprocess_run HostConfigure cmd (host_build_dir self);
  if (returncode =? 0)%Z then
    print (MsgSucceeded HostConfigure);;
    let qmake_dir := build_host_prefix (config self) ++ ["bin"] in
    copy_mingw_dlls self qmake_dir
  else raise RuntimeError.

Definition build_command (self : Qt6Build) (jobs : Z) : list string :=
  [path_str (cmake_cmd self); "--build"; "."; "--parallel"; pretty jobs].

Definition build_host (self : Qt6Build) (jobs : Z) : M unit :=
  print (MsgBanner HostBuild);;
  setup_environment self;;
  let build_cmd := build_command self jobs in
  print (MsgCommand HostBuild build_cmd);;
  print (MsgCmakePath (path_str (cmake_cmd self)));;
  print (MsgBuildDir (host_build_dir self));;
  returncode ← subprocess_run HostBuild build_cmd (host_build_dir self);
  if (returncode =? 0)%Z then print (MsgSucceeded HostBuild)
  else raise RuntimeError.

Definition install_command (self : Qt6Build) : list string :=
  [path_str (cmake_cmd self); "--install"; "."].

Definition install_host (self : Qt6Build) : M unit :=
  print (MsgBanner HostInstall);;
  let install_cmd := install_command self in
  print (MsgCommand HostInstall install_cmd);;
  returncode ← subprocess_run HostInstall install_cmd (host_build_dir self);
  if (returncode =? 0)%Z then
    print (MsgSucceeded HostInstall);;
    print (MsgInstallDir (Some (build_host_prefix (config self))))
  else raise RuntimeError.

Definition cross_configure_command (self : Qt6Build) : list string :=
  ([path_str (configure_script self)]
     ++ build_cross_configure_options (config self))
    ++ ["--"]
    ++ (if openssl_runtime (config self)
        then ["-DOPENSSL_ROOT_DIR=" +:+ path_str (path_openssl (config self))]
        else [])
    ++ ["-DQT_FORCE_BUILD_TOOLS=1"].

Definition configure_cross (self : Qt6Build) : M unit :=
  print (MsgBanner CrossConfigure);;
  setup_environment self;;
  let cmd := cross_configure_command self in
  print (MsgCommand CrossConfigure cmd);;
  returncode ← subprocess_run CrossConfigure cmd (cross_build_dir self);
  if (returncode =? 0)%Z then
    print (MsgSucceeded CrossConfigure);;
    qmake_dir ← os_path_join_opt (build_prefix (config self)) "bin";
    copy_mingw_dlls self qmake_dir
  else raise RuntimeError.

Definition build_cross (self : Qt6Build) (jobs : Z) : M unit :=
  print (MsgBanner CrossBuild);;
  setup_environment self;;
  let build_cmd := build_command self jobs in
  print (MsgCommand CrossBuild build_cmd);;
  print (MsgCmakePath (path_str (cmake_cmd self)));;
  print (MsgBuildDir (cross_build_dir self));;
  returncode ← subprocess_run CrossBuild build_cmd (cross_build_dir self);
  if (returncode =? 0)%Z then print (MsgSucceeded CrossBuild)
  else raise RuntimeError.

Definition copy_one_openssl_lib (openssl_lib target_lib : Path) (so : string)
  : M unit :=
  let src_lib := openssl_lib ++ [so] in
  w ← get_world;
  if path_exists (fs w) src_lib then
    shutil_copy src_lib target_lib;;
    print (MsgOpensslCopied so)
  else print (MsgOpensslMissing so).

Definition _copy_openssl_libs (self : Qt6Build) : M unit :=
  let openssl_lib := path_openssl (config self) ++ ["lib"] in
  target_lib ← os_path_join_opt (build_prefix (config self)) "lib";
  for_each openssl_sos (copy_one_openssl_lib openssl_lib target_lib).

Definition install_cross (self : Qt6Build) : M unit :=
  print (MsgBanner CrossInstall);;
  let install_cmd := install_command self in
  print (MsgCommand CrossInstall install_cmd);;
  returncode ← subprocess_run CrossInstall install_cmd (cross_build_dir self);
  if (returncode =? 0)%Z then
    print (MsgSucceeded CrossInstall);;
    print (MsgInstallDir (build_prefix (config self)));;
    if openssl_runtime (config self) then _copy_openssl_libs self else ret tt
  else raise RuntimeError.

Definition configure (self : Qt6Build) : M unit :=
  configure_host self.

Definition build (self : Qt6Build) (jobs : Z) : M unit :=
  build_host self jobs;;
  configure_cross self;;
  build_cross self jobs.

Definition install (self : Qt6Build) : M unit :=
  install_host self;;
  install_cross self.

Definition clean_one (build_dir : Path) : M unit :=
  w ← get_world;
  if path_exists (fs w) build_dir then
    print (MsgRemoving build_dir);;
    shutil_rmtree_ignore_errors build_dir;;
    print MsgRemoved
  else ret tt.

Definition clean (self : Qt6Build) : M unit :=
  for_each [host_build_dir self; cross_build_dir self] clean_one.

Definition call_create_archive (src dst : Path) (fmt : string) : M unit :=
  fun w =>
    let '(r, f) := create_archive outside src dst fmt (fs w) in
    (r, logged (with_fs w f) (EvArchive src dst fmt)).

Definition package_file_name (self : Qt6Build) (suffix : string) : string :=
  "Qt" +:+ qt_version (config self)
    +:+ "_OHOS" +:+ ohos_version (config self)
    +:+ "_" +:+ build_ohos_abi (config self)
    +:+ "_" +:+ str_lower (system self)
    +:+ "_" +:+ now_stamp outside
    +:+ "." +:+ suffix.

Definition pack (self : Qt6Build) : M unit :=
  let prefix := build_prefix (config self) in
  match prefix with
  | Some (c :: cs) =>
      let suffix :=
        if String.eqb (system self) "Windows" then "zip" else "tar.gz" in
      let package_name :=
        get_output_path (config self) ++ [package_file_name self suffix] in
      call_create_archive (c :: cs) package_name suffix
  | _ => raise ValueError
  end.

(** Modelled from the spec: the outer entry point that drives a full run is
    not part of the two modules; a run calls the three phase methods of the
    class in the order configure, build, install. *)
Definition run_pipeline (self : Qt6Build) (jobs : Z) : M unit :=
  configure self;;
  build self jobs;;
  install self.

End Build.

(** * Vocabulary of the statements *)

(** A character that [strip] keeps. *)
Definition not_space (c : ascii) : bool := negb (PyStr.isspace c).

(** A character other than the carriage return. *)
Definition no_CR (c : ascii) : bool := negb (Ascii.eqb c PyStr.CR).

(** The stages whose process has been started so far, oldest first. *)
Definition calls (w : World) : list Stage := stage_calls (log w).

(** A computation that starts no process. *)
Definition silent {A} (m : M A) : Prop :=
  forall w, calls (snd (m w)) = calls w.

(** A computation that starts no process, leaves the file system alone and
    cannot raise. *)
Definition steady {A} (m : M A) : Prop :=
  forall w, exists a,
    fst (m w) = Ok a /\ fs (snd (m w)) = fs w /\ calls (snd (m w)) = calls w.

(** What one dependency leaves in the log: a copy and its report when the
    source file exists, the warning otherwise. *)
Definition dep_events (f : Fs) (src target : Path) (d : string) : list Event :=
  if path_exists f (src ++ [d])
  then [EvCopy (src ++ [d]) (target ++ [d]); EvPrint (MsgDllCopied d target)]
  else [EvPrint (MsgWarnDllMissing (src ++ [d]))].

(** The six stage methods seen as one family: the method of a stage, its
    working directory and its command line. *)
Section StageVocabulary.

Variable outside : Outside.

Definition stage_method (self : Qt6Build) (jobs : Z) (s : Stage) : M unit :=
  match s with
  | HostConfigure => configure_host outside self
  | HostBuild => build_host outside self jobs
  | HostInstall => install_host outside self
  | CrossConfigure => configure_cross outside self
  | CrossBuild => build_cross outside self jobs
  | CrossInstall => install_cross outside self
  end.

Definition stage_dir (self : Qt6Build) (s : Stage) : Path :=
  match s with
  | HostConfigure | HostBuild | HostInstall => host_build_dir self
  | CrossConfigure | CrossBuild | CrossInstall => cross_build_dir self
  end.

Definition stage_cmd (self : Qt6Build) (jobs : Z) (s : Stage) : list string :=
  match s with
  | HostConfigure =>
      [path_str (configure_script self)]
        ++ build_host_configure_options (config self)
  | CrossConfigure => cross_configure_command self
  | HostBuild | CrossBuild => build_command self jobs
  | HostInstall | CrossInstall => install_command self
  end.

(** The part every stage method ends with: start the process, then act on
    its return code. *)
Definition stage_core (s : Stage) (cmd : list string) (cwd : Path)
    (post : M unit) : M unit :=
  returncode ← subprocess_run outside s cmd cwd;
  if (returncode =? 0)%Z then post else raise RuntimeError.

End StageVocabulary.

(** The configure, build and install entry points of an instance. *)
Inductive Op : Type :=
  | OpStage (s : Stage) (jobs : Z)
  | OpConfigure
  | OpBuild (jobs : Z)
  | OpInstall.

Definition run_op (outside : Outside) (self : Qt6Build) (o : Op) : M unit :=
  match o with
  | OpStage s jobs => stage_method outside self jobs s
  | OpConfigure => configure outside self
  | OpBuild jobs => build outside self jobs
  | OpInstall => install outside self
  end.

(** A caller that goes on after each exception: the outcomes of the calls,
    in order, and the world they leave. *)
Fixpoint run_ops (outside : Outside) (self : Qt6Build) (ops : list Op)
    (w : World) : list (result unit) * World :=
  match ops with
  | [] => ([], w)
  | o :: rest =>
      let '(r, w1) := run_op outside self o w in
      let '(rs, w2) := run_ops outside self rest w1 in
      (r :: rs, w2)
  end.

(** The outcome of a call whose working directory is missing. *)
Definition no_working_dir (self : Qt6Build) (r : result unit) : Prop :=
  r = Raise (FileNotFoundError (host_build_dir self))
  \/ r = Raise (FileNotFoundError (cross_build_dir self)).

(** The order of the specification and the order of the code. *)
Definition spec_order : list Stage :=
  [HostConfigure; HostBuild; HostInstall; CrossConfigure; CrossBuild;
   CrossInstall].

Definition actual_order : list Stage :=
  [HostConfigure; HostBuild; CrossConfigure; CrossBuild; HostInstall;
   CrossInstall].

(** * Concrete scenarios *)

(** One line of [git ls-remote] output. *)
Definition ls_remote_line (hash ref : string) : string :=
  hash +:+ String PyStr.TAB ref +:+ PyStr.newline.

(** A machine with nothing on it. *)
Definition empty_fs : Fs := mkFs ∅ ∅ ∅ ∅ ∅.
Definition empty_world : World := mkWorld empty_fs None [].

(** A source tree [src] with no pin file yet. *)
Definition pin_dir_world : World :=
  mkWorld (mkFs (list_to_set (ancestors ["src"])) ∅ ∅ ∅ ∅) None [].

(** A fetcher with its pin file under the source tree. *)
Definition pin_fetcher : CommitHashFetcher :=
  mkFetcher "https://example.org/qt.git" ["src"; "commit_hash"] "git".

(** Forty characters that are not hexadecimal, and a well-formed hash. *)
Definition forty_g : string := "gggggggggggggggggggggggggggggggggggggggg".
Definition good_hash : string := "a1b2c3d4e5f60718293a4b5c6d7e8f9001122334".

(** A remote end that always completes with the same output. *)
Definition answers (stdout : string) : list string -> GitResult :=
  fun _ => GitCompleted stdout.

(** A pin file that exists and cannot be opened for reading. *)
Definition locked_pin_world : World :=
  mkWorld
    (mkFs (list_to_set (ancestors ["src"]))
          {[ ["src"; "commit_hash"] := good_hash +:+ PyStr.newline ]}
          {[ ["src"; "commit_hash"] ]} ∅ ∅)
    None [].

(** A Linux host with the tool chain in place: both build directories,
    the SDK driver directory and the auxiliary runtime directory exist. *)
Definition demo_config : Config :=
  mkConfig ["sdk"] ["ssl"] (Some ["mingw"; "bin"]) "release"
    ["-prefix"; "hostp"] ["-xplatform"; "ohos"] ["hostp"] (Some ["crossp"])
    false "6.5" "12" "arm64-v8a" ["out"].

Definition demo_fs : Fs :=
  mkFs
    (list_to_set
       (ancestors ["src"; "build"; "host"]
          ++ ancestors ["src"; "build"; "release"]
          ++ ancestors ["mingw"; "bin"]
          ++ ancestors (sdk_cmake_bin demo_config)))
    {[ ["mingw"; "bin"; "libstdc++-6.dll"] := "runtime" ]} ∅ ∅ ∅.

Definition demo_world : World := mkWorld demo_fs (Some "/usr/bin") [].

Definition demo_self : Qt6Build :=
  mkQt6Build ["src"] demo_config "Linux" ["usr"; "bin"; "cmake"]
    ["src"; "build"; "host"] ["src"; "build"; "release"].

(** Stand-in tools that always succeed and touch nothing. *)
Definition tools_ok : Outside :=
  mkOutside (fun _ _ _ f => (0%Z, f)) (fun _ _ _ f => (Ok tt, f))
    "202601010000" "Linux" (Some ["usr"; "bin"; "cmake"]).

(** A machine on which no build driver can be found. *)
Definition tools_without_cmake : Outside :=
  mkOutside (fun _ _ _ f => (0%Z, f)) (fun _ _ _ f => (Ok tt, f))
    "202601010000" "Linux" None.

(** Stand-in tools whose build step exits with code 2. *)
Definition tools_build_fails : Outside :=
  mkOutside
    (fun cmd _ _ f =>
       (if bool_decide (cmd = build_command demo_self 4) then 2%Z else 0%Z, f))
    (fun _ _ _ f => (Ok tt, f))
    "202601010000" "Linux" (Some ["usr"; "bin"; "cmake"]).

(** An instance whose configuration has an empty install prefix. *)
Definition no_prefix_self : Qt6Build :=
  mkQt6Build ["src"]
    (mkConfig ["sdk"] ["ssl"] None "release" [] [] ["hostp"] (Some [])
       false "6.5" "12" "arm64-v8a" ["out"])
    "Linux" ["usr"; "bin"; "cmake"]
    ["src"; "build"; "host"] ["src"; "build"; "release"].

(** A runtime directory that lacks the second of the three libraries. *)
Definition one_missing_fs : Fs :=
  mkFs (list_to_set (ancestors ["mingw"; "bin"]))
    {[ ["mingw"; "bin"; "libstdc++-6.dll"] := "c++ runtime";
       ["mingw"; "bin"; "libwinpthread-1.dll"] := "threads" ]} ∅ ∅ ∅.

Definition one_missing_world : World := mkWorld one_missing_fs None [].

(** * Further code of the two modules *)

(** [CommitHashFetcher.__init__]: an explicit [git_exe] is taken as it is,
    otherwise the result of [shutil.which('git')]; [None] and [''] count as
    absent in both places. *)
Definition opt_truthy (s : option string) : bool :=
  match s with
  | Some v => PyStr.truthy v
  | None => false
  end.

Definition CommitHashFetcher_init (which_git : option string)
    (repo_url : string) (commit_hash_file : Path) (git_exe : option string)
  : result CommitHashFetcher :=
  match git_exe with
  | Some g =>
      if PyStr.truthy g then Ok (mkFetcher repo_url commit_hash_file g)
      else
        match which_git with
        | Some found =>
            if PyStr.truthy found
            then Ok (mkFetcher repo_url commit_hash_file found)
            else Raise (CommitHashFetcherError
                          "Git executable not found in system PATH")
        | None => Raise (CommitHashFetcherError
                           "Git executable not found in system PATH")
        end
  | None =>
      match which_git with
      | Some found =>
          if PyStr.truthy found
          then Ok (mkFetcher repo_url commit_hash_file found)
          else Raise (CommitHashFetcherError
                        "Git executable not found in system PATH")
      | None => Raise (CommitHashFetcherError
                         "Git executable not found in system PATH")
      end
  end.

(** A character other than TAB and LF. *)
Definition not_separator (c : ascii) : bool :=
  negb (Ascii.eqb c PyStr.TAB) && negb (Ascii.eqb c PyStr.LF).

(** The six stages one after the other, stopping at the first exception. *)
Definition run_stages (outside : Outside) (self : Qt6Build) (jobs : Z)
    (stages : list Stage) : M unit :=
  for_each stages (stage_method outside self jobs).

(** The exceptions a stage method can end with. *)
Definition stage_exception (e : Exn) : Prop :=
  match e with
  | FileNotFoundError _ | IsADirectoryError _ | SameFileError _ | TypeError =>
      True
  | CalledProcessError returncode _ _ => returncode <> 0%Z
  | _ => False
  end.

(** A computation whose values satisfy [Q] and whose exceptions satisfy
    [E]. *)
Definition returns {A} (Q : A -> Prop) (E : Exn -> Prop) (m : M A) : Prop :=
  forall w, match fst (m w) with Ok a => Q a | Raise e => E e end.

(** A computation that only adds entries satisfying [P] to the log. *)
Definition appends {A} (P : Event -> Prop) (m : M A) : Prop :=
  forall w, exists l, log (snd (m w)) = log w ++ l /\ Forall P l.

(** A process entry of the log is that of its stage: the command line and
    the working directory of the stage. *)
Definition run_in_place (self : Qt6Build) (jobs : Z) (e : Event) : Prop :=
  match e with
  | EvRun s cmd cwd => cmd = stage_cmd self jobs s /\ cwd = stage_dir self s
  | _ => True
  end.

Definition not_a_copy (e : Event) : Prop :=
  match e with
  | EvCopy _ _ => False
  | _ => True
  end.

(** Outside the two build trees. *)
Definition outside_build_trees (self : Qt6Build) (p : Path) : Prop :=
  below (host_build_dir self) p = false /\ below (cross_build_dir self) p = false.

(** The driver the SDK ships, as the constructor looks for it. *)
Definition sdk_cmake (outside : Outside) (cfg : Config) : Path :=
  sdk_cmake_bin cfg
    ++ [if String.eqb (platform_system outside) "Windows" then "cmake.exe"
        else "cmake"].

(** The constructor finds no build driver: the SDK one is not a file and the
    lookup on the search path gives nothing. *)
Definition no_cmake (outside : Outside) (cfg : Config) (w : World) : Prop :=
  isfile (fs w) (sdk_cmake outside cfg) = false
  /\ path_truthy (which_cmake outside) = false.

(** Nothing is left for [clean] to do at [d]: no directory is there, or
    its removal fails. *)
Definition settled (f : Fs) (d : Path) : Prop :=
  isdir f d = false \/ d ∈ undeletable f.

(** An install prefix with its [lib] directory, and an OpenSSL tree that
    holds one of the four libraries. *)
Definition openssl_world : World :=
  mkWorld
    (mkFs (list_to_set (ancestors ["crossp"; "lib"] ++ ancestors ["ssl"; "lib"]))
          {[ ["ssl"; "lib"; "libssl.so"] := "tls" ]} ∅ ∅ ∅)
    None [].

(** * Properties *)

(** ** Strings *)

Ltac unfold_monad :=
  unfold mbind, M_bind, mret, M_ret, bind, ret, raise, try_except, get_world,
    print, emit in *.

Lemma lower_hex_not_space c :
  PyStr.is_lower_hex c = true -> PyStr.isspace c = false.
Proof.
  destruct c as [[] [] [] [] [] [] [] []]; vm_compute; congruence.
Qed.

Lemma all_chars_impl (p q : ascii -> bool) s :
  (forall c, p c = true -> q c = true) ->
  PyStr.all_chars p s = true -> PyStr.all_chars q s = true.
Proof.
  intros Hpq. induction s as [|c s IH]; simpl; [done|].
  intros [Hc Hs]%andb_prop. rewrite (Hpq _ Hc), (IH Hs). done.
Qed.

Lemma rstrip_trailing_newline s :
  PyStr.all_chars not_space s = true ->
  PyStr.rstrip (s +:+ PyStr.newline) = s.
Proof.
  induction s as [|c s IH]; simpl; [done|].
  intros [Hc Hs]%andb_prop. rewrite (IH Hs).
  unfold not_space in Hc. apply negb_true_iff in Hc. rewrite Hc.
  destruct s; done.
Qed.

Lemma strip_trailing_newline s :
  PyStr.all_chars not_space s = true ->
  PyStr.strip (s +:+ PyStr.newline) = s.
Proof.
  intros Hs. unfold PyStr.strip.
  destruct s as [|c s]; [done|].
  pose proof Hs as Hs'. simpl in Hs'. apply andb_prop in Hs' as [Hc _].
  unfold not_space in Hc. apply negb_true_iff in Hc.
  change (String c s +:+ PyStr.newline) with (String c (s +:+ PyStr.newline)).
  cbn [PyStr.lstrip]. rewrite Hc.
  change (String c (s +:+ PyStr.newline)) with (String c s +:+ PyStr.newline).
  by apply rstrip_trailing_newline.
Qed.

Lemma spec_valid_not_space s :
  spec_is_valid_hash s = true -> PyStr.all_chars not_space s = true.
Proof.
  unfold spec_is_valid_hash. intros [_ Hhex]%andb_prop.
  revert Hhex. apply all_chars_impl. intros c Hc.
  unfold not_space. by rewrite (lower_hex_not_space _ Hc).
Qed.

Lemma not_space_no_CR c : not_space c = true -> no_CR c = true.
Proof.
  destruct c as [[] [] [] [] [] [] [] []]; vm_compute; congruence.
Qed.

Lemma spec_valid_no_CR s :
  spec_is_valid_hash s = true -> PyStr.all_chars no_CR s = true.
Proof.
  intros Hs. apply (all_chars_impl not_space); [apply not_space_no_CR|].
  by apply spec_valid_not_space.
Qed.

Lemma universal_newlines_id s :
  PyStr.all_chars no_CR s = true -> PyStr.universal_newlines s = s.
Proof.
  induction s as [|c s IH]; [done|]. simpl.
  intros [Hc Hs]%andb_prop. unfold no_CR in Hc. apply negb_true_iff in Hc.
  by rewrite Hc, IH.
Qed.

Lemma all_chars_app p s t :
  PyStr.all_chars p s = true -> PyStr.all_chars p t = true ->
  PyStr.all_chars p (s +:+ t) = true.
Proof.
  induction s as [|c s IH]; [done|]. simpl.
  intros [-> Hs]%andb_prop Ht. by rewrite IH.
Qed.

Lemma read_back_newline s :
  PyStr.all_chars no_CR s = true ->
  PyStr.universal_newlines (s +:+ PyStr.newline) = s +:+ PyStr.newline.
Proof.
  intros Hs. apply universal_newlines_id. by apply all_chars_app.
Qed.

Lemma is_valid_hash_length s :
  is_valid_hash s = true <-> String.length s = 40.
Proof.
  unfold is_valid_hash, rejects_hash. split.
  - intros H. apply negb_true_iff, orb_false_iff in H as [_ H].
    apply negb_false_iff in H. by apply Nat.eqb_eq.
  - intros H. rewrite H. destruct s; [done|]. done.
Qed.

(** ** Commit-hash fetcher *)

(** C2, as stated, fails: a forty-character string that is not hexadecimal
    passes the check of line 70 and is returned by the fetch. *)
Lemma fetch_accepts_non_hex :
  is_valid_hash forty_g = true
  /\ spec_is_valid_hash forty_g = false
  /\ fetch_latest_commit_hash
       (answers (ls_remote_line forty_g "refs/heads/main"))
       pin_fetcher "HEAD" empty_world
     = (Ok forty_g, empty_world).
Proof. repeat split; vm_compute; reflexivity. Qed.

(** C2 (amended): the check of the fetcher holds exactly for the strings of
    length 40, whatever their characters; when the query completes, the fetch
    raises a fetch error if the hash extracted from the first line fails that
    check and otherwise returns exactly the extracted hash, without the
    reference name. *)
Theorem fetch_checks_length_only git self branch stdout w :
  git [git_exe self; "ls-remote"; repo_url self; branch] = GitCompleted stdout ->
  (forall s, is_valid_hash s = true <-> String.length s = 40)
  /\ (is_valid_hash (extract_hash stdout) = true ->
      fetch_latest_commit_hash git self branch w
      = (Ok (extract_hash stdout), w))
  /\ (is_valid_hash (extract_hash stdout) = false ->
      exists msg,
        fetch_latest_commit_hash git self branch w
        = (Raise (CommitHashFetcherError msg), w)).
Proof.
  intros Hgit. split; [apply is_valid_hash_length|].
  unfold fetch_latest_commit_hash, subprocess_run_git, extract_hash, is_valid_hash.
  unfold_monad. rewrite Hgit.
  destruct (PyStr.strip stdout) as [|c out] eqn:Hout; cbn [PyStr.truthy negb].
  - split; [intros H; vm_compute in H; discriminate|]. intros _. eauto.
  - set (h := PyStr.strip _). destruct (rejects_hash h); simpl.
    + split; [discriminate|]. eauto.
    + split; [done|discriminate].
Qed.

Lemma fetch_checks_length_only_witness :
  fetch_latest_commit_hash
    (answers (ls_remote_line good_hash "refs/heads/main"))
    pin_fetcher "HEAD" empty_world
  = (Ok good_hash, empty_world).
Proof.
  apply (fetch_checks_length_only
           (answers (ls_remote_line good_hash "refs/heads/main"))
           pin_fetcher "HEAD"
           (ls_remote_line good_hash "refs/heads/main") empty_world).
  - reflexivity.
  - vm_compute; reflexivity.
Defined.

Lemma update_given_eq git self h w :
  update_commit_hash_file git self (Some h) w
  = if open_for_writing_fails (fs w) (commit_hash_file self)
    then (Raise (CommitHashFetcherError
                   ("Failed to write to " +:+ path_str (commit_hash_file self))),
          w)
    else (Ok h,
          logged
            (logged
               (with_fs w
                  (with_files (fs w)
                     (<[commit_hash_file self := h +:+ PyStr.newline]>
                        (files (fs w)))))
               (EvWrite (commit_hash_file self) (h +:+ PyStr.newline)))
            (EvPrint (MsgHashUpdated (commit_hash_file self) h))).
Proof.
  unfold update_commit_hash_file, write_text. unfold_monad.
  destruct (open_for_writing_fails _ _); reflexivity.
Qed.

Lemma fetch_ok_length git self branch w h w' :
  fetch_latest_commit_hash git self branch w = (Ok h, w') ->
  String.length h = 40 /\ w' = w.
Proof.
  unfold fetch_latest_commit_hash, subprocess_run_git. unfold_monad.
  destruct (git _) as [stdout| |rc err|msg]; try discriminate.
  destruct (PyStr.truthy (PyStr.strip stdout)); simpl; [|discriminate].
  set (c := PyStr.strip _).
  destruct (rejects_hash c) eqn:Hrej; simpl; [discriminate|].
  intros [= <- <-]. split; [|done].
  apply is_valid_hash_length. unfold is_valid_hash. by rewrite Hrej.
Qed.

(** C3, as stated, fails: in a source tree that exists, a value supplied
    by the caller is written as it is, whatever its format. *)
Lemma update_persists_unchecked_value :
  let '(r, w') :=
    update_commit_hash_file (answers "") pin_fetcher (Some "not a hash")
      pin_dir_world in
  r = Ok "not a hash"
  /\ files (fs w') !! commit_hash_file pin_fetcher
     = Some ("not a hash" +:+ PyStr.newline)
  /\ spec_is_valid_hash "not a hash" = false.
Proof. vm_compute. repeat split. Qed.

(** C3 (amended): the update writes the value it is given without checking
    its format, and a value it fetches itself is only known to have length
    40; after a successful write the content of the file is the returned value
    followed by a single newline. *)
Theorem update_writes_value_and_newline git self arg w h w' :
  update_commit_hash_file git self arg w = (Ok h, w') ->
  files (fs w') !! commit_hash_file self = Some (h +:+ PyStr.newline)
  /\ match arg with
     | Some given => h = given
     | None => String.length h = 40
     end.
Proof.
  destruct arg as [given|].
  - rewrite update_given_eq. destruct (open_for_writing_fails _ _); [discriminate|].
    intros [= <- <-]. simpl. split; [apply lookup_insert_eq|done].
  - unfold update_commit_hash_file. unfold mbind, M_bind, bind at 1.
    destruct (fetch_latest_commit_hash git self "HEAD" w) as [[f|e] w1] eqn:Hf;
      [|discriminate].
    apply fetch_ok_length in Hf as [Hlen ->].
    intros Hup.
    assert (update_commit_hash_file git self (Some f) w = (Ok h, w')) as Hup'
      by exact Hup.
    rewrite update_given_eq in Hup'. destruct (open_for_writing_fails _ _); [discriminate|].
    injection Hup' as <- <-. simpl. split; [apply lookup_insert_eq|done].
Qed.

Lemma update_writes_value_and_newline_witness :
  files (fs (snd (update_commit_hash_file (answers "") pin_fetcher
                    (Some good_hash) pin_dir_world)))
    !! commit_hash_file pin_fetcher
  = Some (good_hash +:+ PyStr.newline).
Proof.
  apply (update_writes_value_and_newline (answers "") pin_fetcher
           (Some good_hash) pin_dir_world good_hash).
  vm_compute; reflexivity.
Defined.

(** C4, as stated, fails: an existing file that cannot be read makes the
    read return [None]; nothing is raised. *)
Lemma read_swallows_io_error :
  path_exists (fs locked_pin_world) (commit_hash_file pin_fetcher) = true
  /\ read_text (commit_hash_file pin_fetcher) locked_pin_world
     = (Raise (IOError (commit_hash_file pin_fetcher)), locked_pin_world)
  /\ read_commit_hash_file pin_fetcher locked_pin_world
     = (Ok None, locked_pin_world).
Proof. vm_compute. repeat split. Qed.

(** C4 (amended): when the commit-hash file exists and reading it fails for
    an I/O reason, the read returns [None] and raises nothing. *)
Theorem read_io_failure_returns_none self w e :
  path_exists (fs w) (commit_hash_file self) = true ->
  read_text (commit_hash_file self) w = (Raise e, w) ->
  read_commit_hash_file self w = (Ok None, w).
Proof.
  intros Hex Hread. unfold read_commit_hash_file. unfold_monad.
  rewrite Hex. simpl. rewrite Hread.
  unfold read_text in Hread.
  destruct (files (fs w) !! commit_hash_file self);
    [destruct (bool_decide _)|]; by simplify_eq.
Qed.

Lemma read_io_failure_returns_none_witness :
  read_commit_hash_file pin_fetcher locked_pin_world
  = (Ok None, locked_pin_world).
Proof.
  apply (read_io_failure_returns_none pin_fetcher locked_pin_world
           (IOError (commit_hash_file pin_fetcher))).
  - vm_compute; reflexivity.
  - vm_compute; reflexivity.
Defined.



(** ** Stage invocations left in the log *)

Lemma calls_logged w e :
  calls (logged w e)
  = calls w ++ match e with EvRun s _ _ => [s] | _ => [] end.
Proof.
  unfold calls, stage_calls, logged. simpl. rewrite omap_app. simpl.
  destruct e; reflexivity.
Qed.

Lemma calls_logged_quiet w e :
  (forall s cmd cwd, e <> EvRun s cmd cwd) -> calls (logged w e) = calls w.
Proof.
  intros He. rewrite calls_logged. destruct e; try apply app_nil_r.
  by destruct (He s cmd cwd).
Qed.

Lemma calls_with_fs w f : calls (with_fs w f) = calls w.
Proof. reflexivity. Qed.

Lemma silent_ret {A} (a : A) : silent (mret a).
Proof. intros w. reflexivity. Qed.

Lemma silent_raise {A} e : silent (@raise A e).
Proof. intros w. reflexivity. Qed.

Lemma silent_get_world : silent get_world.
Proof. intros w. reflexivity. Qed.

Lemma silent_print m : silent (print m).
Proof. intros w. simpl. by apply calls_logged_quiet. Qed.

Lemma silent_bind {A B} (m : M A) (k : A -> M B) :
  silent m -> (forall a, silent (k a)) -> silent (m ≫= k).
Proof.
  intros Hm Hk w. unfold mbind, M_bind, bind.
  specialize (Hm w). destruct (m w) as [[a|e] w1]; simpl in *.
  - rewrite <- Hm. apply Hk.
  - exact Hm.
Qed.

Lemma silent_for_each {A} (xs : list A) (body : A -> M unit) :
  (forall x, silent (body x)) -> silent (for_each xs body).
Proof.
  intros Hb. induction xs as [|x xs IH]; simpl.
  - apply (silent_ret tt).
  - apply silent_bind; auto.
Qed.

Lemma silent_os_makedirs p : silent (os_makedirs p).
Proof.
  intros w. destruct p; simpl; [done|]. by rewrite calls_logged_quiet.
Qed.

Lemma silent_shutil_copy src dst : silent (shutil_copy src dst).
Proof.
  intros w. unfold shutil_copy.
  destruct (files (fs w) !! src); [destruct (bool_decide _)|]; simpl;
    rewrite ?calls_with_fs; by apply calls_logged_quiet.
Qed.

Lemma silent_rmtree p : silent (shutil_rmtree_ignore_errors p).
Proof.
  intros w. unfold shutil_rmtree_ignore_errors.
  destruct (_ && _); simpl; rewrite ?calls_with_fs; by apply calls_logged_quiet.
Qed.

Lemma silent_putenv v : silent (putenv_PATH v).
Proof. intros w. simpl. by rewrite calls_logged_quiet. Qed.

Lemma silent_join_opt base name : silent (os_path_join_opt base name).
Proof. destruct base; [apply silent_ret|apply silent_raise]. Qed.

Create HintDb silent.
#[export] Hint Resolve silent_get_world silent_print silent_os_makedirs
  silent_shutil_copy silent_rmtree silent_putenv silent_join_opt silent_raise
  : silent.

Ltac silent_auto :=
  repeat first
    [ progress intros
    | apply silent_bind
    | apply silent_for_each
    | apply (silent_ret tt)
    | apply silent_ret
    | solve [auto with silent]
    | match goal with
      | |- silent (if ?b then _ else _) => destruct b
      | |- silent (match ?x with _ => _ end) => destruct x
      end ].

Lemma silent_ensure_dir p : silent (ensure_dir p).
Proof. unfold ensure_dir. silent_auto. Qed.

Lemma silent_setup_environment self : silent (setup_environment self).
Proof. unfold setup_environment. silent_auto. Qed.

Lemma silent_copy_dlls mingw_bin deps target :
  silent (copy_dlls mingw_bin deps target).
Proof.
  unfold copy_dlls, copy_one_dll. pose proof silent_ensure_dir. silent_auto.
Qed.

Lemma silent_copy_mingw_dlls self target : silent (copy_mingw_dlls self target).
Proof. apply silent_copy_dlls. Qed.

Lemma silent_copy_openssl_libs self : silent (_copy_openssl_libs self).
Proof. unfold _copy_openssl_libs, copy_one_openssl_lib. silent_auto. Qed.

Lemma silent_clean self : silent (clean self).
Proof. unfold clean, clean_one. silent_auto. Qed.

Lemma steady_ret {A} (a : A) : steady (mret a).
Proof. intros w. exists a. done. Qed.

Lemma steady_print m : steady (print m).
Proof.
  intros w. exists tt. repeat split. apply (silent_print m w).
Qed.

Lemma steady_putenv v : steady (putenv_PATH v).
Proof. intros w. exists tt. repeat split. apply (silent_putenv v w). Qed.

Lemma steady_get_world : steady get_world.
Proof. intros w. exists w. done. Qed.

Lemma steady_bind {A B} (m : M A) (k : A -> M B) :
  steady m -> (forall a, steady (k a)) -> steady (m ≫= k).
Proof.
  intros Hm Hk w. unfold mbind, M_bind, bind.
  destruct (Hm w) as (a & Hr & Hfs & Hc).
  destruct (m w) as [r w1]; simpl in *. subst r.
  destruct (Hk a w1) as (b & Hr' & Hfs' & Hc').
  exists b. rewrite Hr', Hfs', Hc'. done.
Qed.

Lemma steady_setup_environment self : steady (setup_environment self).
Proof.
  unfold setup_environment.
  repeat first
    [ progress intros
    | apply steady_bind
    | apply steady_get_world
    | apply steady_print
    | apply steady_putenv
    | apply (steady_ret tt)
    | match goal with
      | |- steady (if ?b then _ else _) => destruct b
      | |- steady (match ?x with _ => _ end) => destruct x
      end ].
Qed.

(** Running past a steady prefix. *)
Lemma steady_step {A B} (m : M A) (k : A -> M B) w :
  steady m ->
  exists a w1,
    fs w1 = fs w /\ calls w1 = calls w /\ (m ≫= k) w = k a w1.
Proof.
  intros Hm. destruct (Hm w) as (a & Hr & Hfs & Hc).
  exists a, (snd (m w)). repeat split; try done.
  unfold mbind, M_bind, bind. destruct (m w) as [r w1]; simpl in *. by subst r.
Qed.

(** ** The six stage methods *)

Section Stages.

Variable outside : Outside.

Lemma stage_core_missing_dir s cmd cwd post w :
  isdir (fs w) cwd = false ->
  stage_core outside s cmd cwd post w = (Raise (FileNotFoundError cwd), w).
Proof.
  intros Hdir. unfold stage_core, subprocess_run, mbind, M_bind, bind.
  by rewrite Hdir.
Qed.

Lemma stage_core_started s cmd cwd post w :
  silent post ->
  isdir (fs w) cwd = true ->
  calls (snd (stage_core outside s cmd cwd post w)) = calls w ++ [s]
  /\ (fst (exec outside cmd cwd (environ_PATH w) (fs w)) <> 0%Z ->
      fst (stage_core outside s cmd cwd post w)
      = Raise (CalledProcessError
                 (fst (exec outside cmd cwd (environ_PATH w) (fs w))) cmd "")).
Proof.
  intros Hpost Hdir. unfold stage_core, subprocess_run, mbind, M_bind, bind.
  rewrite Hdir. simpl.
  destruct (exec outside cmd cwd (environ_PATH w) (fs w)) as [rc f]. simpl.
  destruct (Z.eqb_spec rc 0) as [->|Hrc]; simpl.
  - split; [|done]. rewrite Hpost. by rewrite calls_logged, calls_with_fs.
  - split; [by rewrite calls_logged, calls_with_fs|done].
Qed.

(** Every stage method is a steady prefix followed by [stage_core]. *)
Lemma stage_method_shape self jobs s w :
  exists w1 post,
    fs w1 = fs w /\ calls w1 = calls w /\ silent post
    /\ stage_method outside self jobs s w
       = stage_core outside s (stage_cmd self jobs s) (stage_dir self s) post w1.
Proof.
  pose proof (steady_setup_environment self) as Henv.
  pose proof (silent_copy_mingw_dlls self) as Hdll.
  pose proof (silent_copy_openssl_libs self) as Hssl.
  destruct s; unfold stage_method, stage_cmd, stage_dir, stage_core,
    configure_host, build_host, install_host, configure_cross, build_cross,
    install_cross;
    repeat match goal with
      | |- exists w1 post, _ /\ _ /\ _ /\ (?m ≫= ?k) ?w0 = _ =>
          let a := fresh "a" in
          let w' := fresh "w" in
          let Hf := fresh "Hf" in
          let Hc := fresh "Hc" in
          let He := fresh "He" in
          first
            [ destruct (steady_step m k w0 (steady_print _))
                as (a & w' & Hf & Hc & He)
            | destruct (steady_step m k w0 Henv) as (a & w' & Hf & Hc & He) ];
          rewrite He; clear He
      end;
    eexists _, _; (split; [|split; [|split; [|reflexivity]]]);
    try congruence; silent_auto.
Qed.

Lemma stage_method_missing_dir self jobs s w :
  isdir (fs w) (stage_dir self s) = false ->
  exists w',
    stage_method outside self jobs s w = (Raise (FileNotFoundError (stage_dir self s)), w')
    /\ fs w' = fs w /\ calls w' = calls w.
Proof.
  intros Hdir.
  destruct (stage_method_shape self jobs s w) as (w1 & post & Hf & Hc & _ & ->).
  exists w1. rewrite stage_core_missing_dir by by rewrite Hf. done.
Qed.

Lemma stage_method_started self jobs s w :
  isdir (fs w) (stage_dir self s) = true ->
  calls (snd (stage_method outside self jobs s w)) = calls w ++ [s].
Proof.
  intros Hdir.
  destruct (stage_method_shape self jobs s w) as (w1 & post & Hf & Hc & Hp & ->).
  rewrite <- Hc. apply stage_core_started; [done|by rewrite Hf].
Qed.

Lemma stage_method_ok self jobs s w a w' :
  stage_method outside self jobs s w = (Ok a, w') -> calls w' = calls w ++ [s].
Proof.
  intros Hrun. destruct (isdir (fs w) (stage_dir self s)) eqn:Hdir.
  - pose proof (stage_method_started self jobs s w Hdir) as H.
    by rewrite Hrun in H.
  - destruct (stage_method_missing_dir self jobs s w Hdir) as (w2 & H & _).
    congruence.
Qed.

Lemma stage_method_nonzero self jobs s w :
  isdir (fs w) (stage_dir self s) = true ->
  (forall search_path,
      fst (exec outside (stage_cmd self jobs s) (stage_dir self s) search_path
             (fs w)) <> 0%Z) ->
  exists c w',
    c <> 0%Z
    /\ stage_method outside self jobs s w
       = (Raise (CalledProcessError c (stage_cmd self jobs s) ""), w')
    /\ calls w' = calls w ++ [s].
Proof.
  intros Hdir Hexit.
  pose proof (stage_method_started self jobs s w Hdir) as Hcalls.
  destruct (stage_method_shape self jobs s w) as (w1 & post & Hf & Hc & Hp & Heq).
  rewrite Heq in Hcalls |- *.
  destruct (stage_core_started s (stage_cmd self jobs s) (stage_dir self s)
              post w1 Hp) as [_ Hraise]; [by rewrite Hf|].
  specialize (Hexit (environ_PATH w1)). rewrite <- Hf in Hexit.
  specialize (Hraise Hexit).
  destruct (stage_core _ _ _ _ _ w1) as [r w']. simpl in *. subst r.
  eexists _, w'. split; [exact Hexit|]. split; [reflexivity|done].
Qed.

End Stages.

(** ** Ordering of the pipeline *)

Lemma bind_ok_inv {A B} (m : M A) (k : A -> M B) w b w' :
  (m ≫= k) w = (Ok b, w') ->
  exists a w1, m w = (Ok a, w1) /\ k a w1 = (Ok b, w').
Proof.
  unfold mbind, M_bind, bind. destruct (m w) as [[a|e] w1]; [eauto|discriminate].
Qed.

Lemma build_ok_calls outside self jobs w w' :
  build outside self jobs w = (Ok tt, w') ->
  calls w' = calls w ++ [HostBuild; CrossConfigure; CrossBuild].
Proof.
  unfold build. intros H.
  apply bind_ok_inv in H as ([] & w1 & H1 & H).
  apply bind_ok_inv in H as ([] & w2 & H2 & H3).
  apply (stage_method_ok outside self jobs HostBuild) in H1.
  apply (stage_method_ok outside self jobs CrossConfigure) in H2.
  apply (stage_method_ok outside self jobs CrossBuild) in H3.
  rewrite H3, H2, H1, <- !app_assoc. reflexivity.
Qed.

Lemma install_ok_calls outside self w w' :
  install outside self w = (Ok tt, w') ->
  calls w' = calls w ++ [HostInstall; CrossInstall].
Proof.
  unfold install. intros H.
  apply bind_ok_inv in H as ([] & w1 & H1 & H2).
  apply (stage_method_ok outside self 0 HostInstall) in H1.
  apply (stage_method_ok outside self 0 CrossInstall) in H2.
  rewrite H2, H1, <- !app_assoc. reflexivity.
Qed.

(** C1, as stated, fails: with tools that all succeed the run calls the
    cross configure and cross build steps before the host install step. *)
Lemma pipeline_installs_host_after_cross_build :
  (let '(r, w') := run_pipeline tools_ok demo_self 4 demo_world in
   r = Ok tt /\ calls w' = actual_order /\ calls w' <> spec_order)
  /\ (let '(r, w') := build tools_ok demo_self 4 demo_world in
      r = Ok tt /\ calls w' = [HostBuild; CrossConfigure; CrossBuild]).
Proof. vm_compute. repeat split. discriminate. Qed.

(** C1 (amended): across a full successful run of the three phases the
    stage invocations occur in exactly the order HostConfigure, HostBuild,
    CrossConfigure, CrossBuild, HostInstall, CrossInstall; the cross
    configure step is reached as soon as the host build step has
    succeeded, inside the build phase, before the host install step. *)
Theorem successful_run_stage_order outside self jobs w w' :
  run_pipeline outside self jobs w = (Ok tt, w') ->
  calls w' = calls w ++ actual_order
  /\ forall w1 w2,
       build outside self jobs w1 = (Ok tt, w2) ->
       calls w2 = calls w1 ++ [HostBuild; CrossConfigure; CrossBuild].
Proof.
  intros H. split; [|apply build_ok_calls].
  unfold run_pipeline, configure in H.
  apply bind_ok_inv in H as ([] & w1 & H1 & H).
  apply bind_ok_inv in H as ([] & w2 & H2 & H3).
  apply (stage_method_ok outside self jobs HostConfigure) in H1.
  apply build_ok_calls in H2. apply install_ok_calls in H3.
  rewrite H3, H2, H1, <- !app_assoc. reflexivity.
Qed.

Lemma successful_run_stage_order_witness :
  calls (snd (run_pipeline tools_ok demo_self 4 demo_world))
  = calls demo_world ++ actual_order.
Proof.
  refine (proj1 (successful_run_stage_order tools_ok demo_self 4 demo_world
                   (snd (run_pipeline tools_ok demo_self 4 demo_world)) _)).
  vm_compute; reflexivity.
Defined.

(** C6: when the host build step exits with a non-zero code, the build
    phase and the whole run raise the error of that step; the host build
    step has been started once and no later stage is started. *)
Theorem host_build_failure_halts outside self jobs w0 w :
  configure outside self w0 = (Ok tt, w) ->
  isdir (fs w) (host_build_dir self) = true ->
  (forall search_path,
      fst (exec outside (build_command self jobs) (host_build_dir self)
             search_path (fs w)) <> 0%Z) ->
  exists c w',
    c <> 0%Z
    /\ build outside self jobs w
       = (Raise (CalledProcessError c (build_command self jobs) ""), w')
    /\ calls w' = calls w ++ [HostBuild]
    /\ run_pipeline outside self jobs w0
       = (Raise (CalledProcessError c (build_command self jobs) ""), w')
    /\ calls w' = calls w0 ++ [HostConfigure; HostBuild].
Proof.
  intros Hconf Hdir Hexit.
  destruct (stage_method_nonzero outside self jobs HostBuild w Hdir Hexit)
    as (c & w' & Hc & Hrun & Hcalls).
  simpl in Hrun.
  assert (build outside self jobs w
          = (Raise (CalledProcessError c (build_command self jobs) ""), w'))
    as Hbuild.
  { unfold build, mbind, M_bind, bind. by rewrite Hrun. }
  exists c, w'. repeat split; try done.
  - unfold run_pipeline. unfold mbind at 1, M_bind at 1, bind at 1.
    rewrite Hconf. unfold mbind at 1, M_bind at 1, bind at 1.
    by rewrite Hbuild.
  - rewrite Hcalls.
    apply (stage_method_ok outside self jobs HostConfigure) in Hconf.
    rewrite Hconf, <- app_assoc. reflexivity.
Qed.

Lemma host_build_failure_halts_witness :
  exists c w',
    c <> 0%Z
    /\ build tools_build_fails demo_self 4
         (snd (configure tools_build_fails demo_self demo_world))
       = (Raise (CalledProcessError c (build_command demo_self 4) ""), w')
    /\ calls w'
       = calls (snd (configure tools_build_fails demo_self demo_world))
           ++ [HostBuild]
    /\ run_pipeline tools_build_fails demo_self 4 demo_world
       = (Raise (CalledProcessError c (build_command demo_self 4) ""), w')
    /\ calls w' = calls demo_world ++ [HostConfigure; HostBuild].
Proof.
  apply (host_build_failure_halts tools_build_fails demo_self 4 demo_world).
  - vm_compute; reflexivity.
  - vm_compute; reflexivity.
  - intros search_path. vm_compute. discriminate.
Defined.

(** ** Packaging *)

(** C8: with an unset or empty install prefix, [pack] raises the
    configuration error and leaves the world as it was: the file system is
    untouched and the archive helper is not called. *)
Theorem pack_without_prefix_raises outside self w :
  path_truthy (build_prefix (config self)) = false ->
  pack outside self w = (Raise ValueError, w).
Proof.
  unfold pack, path_truthy.
  destruct (build_prefix (config self)) as [[|c cs]|]; done.
Qed.

Lemma pack_without_prefix_raises_witness :
  pack tools_ok no_prefix_self demo_world = (Raise ValueError, demo_world).
Proof.
  apply (pack_without_prefix_raises tools_ok no_prefix_self demo_world).
  reflexivity.
Defined.

(** ** Environment preparation *)

(** C5, as stated, fails: the method returns no overlay and rewrites the
    process-wide search path. *)
Lemma setup_environment_mutates_PATH :
  let '(r, w') := setup_environment demo_self demo_world in
  r = Ok tt
  /\ environ_PATH demo_world = Some "/usr/bin"
  /\ environ_PATH w'
     = Some "mingw/bin:sdk/native/build-tools/cmake/bin:/usr/bin"
  /\ environ_PATH w' <> environ_PATH demo_world.
Proof. vm_compute. repeat split. discriminate. Qed.

(** C5 (amended): environment preparation returns nothing and changes the
    process-wide search path in place, leaving the file system alone: it
    puts the build-driver location in front first and then the
    auxiliary-runtime location in front of that, so that the new search
    path reads auxiliary runtime, build driver, previous value. *)
Theorem setup_environment_prepends_to_PATH self w mingw :
  isdir (fs w) (sdk_cmake_bin (config self)) = true ->
  build_tool_mingw (config self) = Some mingw ->
  mingw <> [] ->
  isdir (fs w) mingw = true ->
  exists w',
    setup_environment self w = (Ok tt, w')
    /\ fs w' = fs w
    /\ environ_PATH w'
       = Some (path_str mingw +:+ os_pathsep (system self)
                 +:+ path_str (sdk_cmake_bin (config self))
                 +:+ os_pathsep (system self)
                 +:+ default "" (environ_PATH w)).
Proof.
  intros Hcmake Hmingw Hne Hdir.
  unfold setup_environment, putenv_PATH. unfold_monad.
  rewrite Hcmake. simpl. rewrite Hmingw.
  destruct mingw as [|c cs]; [done|]. simpl.
  rewrite Hdir. eexists. split; [reflexivity|]. split; reflexivity.
Qed.

Lemma setup_environment_prepends_to_PATH_witness :
  exists w',
    setup_environment demo_self demo_world = (Ok tt, w')
    /\ fs w' = fs demo_world
    /\ environ_PATH w'
       = Some ("mingw/bin" +:+ ":" +:+ "sdk/native/build-tools/cmake/bin"
                 +:+ ":" +:+ "/usr/bin").
Proof.
  apply (setup_environment_prepends_to_PATH demo_self demo_world
           ["mingw"; "bin"]).
  - vm_compute; reflexivity.
  - reflexivity.
  - discriminate.
  - vm_compute; reflexivity.
Defined.

(** ** Copying the runtime dependencies *)

Lemma copy_one_dll_eq src target d w :
  copy_one_dll (Some src) target d w
  = if path_exists (fs w) (src ++ [d]) then
      match files (fs w) !! (src ++ [d]) with
      | None =>
          (Raise (IsADirectoryError (src ++ [d])),
           logged w (EvCopy (src ++ [d]) (target ++ [d])))
      | Some text =>
          if bool_decide
               (src ++ [d] = copy_target (fs w) (src ++ [d]) (target ++ [d]))
          then (Raise (SameFileError (src ++ [d])),
                logged w (EvCopy (src ++ [d]) (target ++ [d])))
          else (Ok tt,
                logged
                  (with_fs (logged w (EvCopy (src ++ [d]) (target ++ [d])))
                     (with_files (fs w)
                        (<[copy_target (fs w) (src ++ [d]) (target ++ [d])
                           := text]> (files (fs w)))))
                  (EvPrint (MsgDllCopied d target)))
      end
    else (Ok tt, logged w (EvPrint (MsgWarnDllMissing (src ++ [d])))).
Proof.
  unfold copy_one_dll, os_path_join_opt, shutil_copy. unfold_monad.
  destruct (path_exists (fs w) (src ++ [d])) eqn:Hex; [|reflexivity].
  destruct (files (fs w) !! (src ++ [d])) as [text|] eqn:Hfile.
  - destruct (bool_decide _); reflexivity.
  - unfold path_exists, isfile in Hex. rewrite Hfile, orb_false_r in Hex.
    by rewrite Hex.
Qed.

Lemma copy_target_last f src target d :
  List.last (copy_target f (src ++ [d]) (target ++ [d])) "" = d.
Proof.
  unfold copy_target. destruct (isdir f (target ++ [d]));
    rewrite ?last_last; reflexivity.
Qed.

Lemma copy_target_source_key f src target d d' :
  src ++ [d] <> copy_target f (src ++ [d]) (target ++ [d]) ->
  copy_target f (src ++ [d]) (target ++ [d]) <> src ++ [d'].
Proof.
  intros Hne Heq. apply Hne.
  assert (d = d') as ->; [|done].
  rewrite <- (copy_target_last f src target d), Heq. apply last_last.
Qed.

Lemma copy_loop_spec src target deps :
  forall w r w',
    for_each deps (copy_one_dll (Some src) target) w = (r, w') ->
    dirs (fs w') = dirs (fs w)
    /\ (forall d, files (fs w') !! (src ++ [d]) = files (fs w) !! (src ++ [d]))
    /\ (forall key,
           (forall d, d ∈ deps ->
                      key <> copy_target (fs w) (src ++ [d]) (target ++ [d])) ->
           files (fs w') !! key = files (fs w) !! key)
    /\ match r with
       | Ok _ =>
           log w' = log w ++ concat (map (dep_events (fs w) src target) deps)
           /\ forall d text,
                d ∈ deps ->
                files (fs w) !! (src ++ [d]) = Some text ->
                files (fs w')
                  !! copy_target (fs w) (src ++ [d]) (target ++ [d])
                = Some text
       | Raise e =>
           exists d,
             d ∈ deps
             /\ path_exists (fs w) (src ++ [d]) = true
             /\ (e = IsADirectoryError (src ++ [d])
                 \/ e = SameFileError (src ++ [d]))
       end.
Proof.
  induction deps as [|d0 rest IH]; intros w r w' Hrun.
  - injection Hrun as <- <-. repeat split; try done.
    + simpl. by rewrite app_nil_r.
    + intros d text Hd. by apply elem_of_nil in Hd.
  - simpl in Hrun. unfold mbind, M_bind, bind in Hrun.
    rewrite copy_one_dll_eq in Hrun.
    assert (Hfail : forall e w1,
               path_exists (fs w) (src ++ [d0]) = true ->
               (e = IsADirectoryError (src ++ [d0])
                \/ e = SameFileError (src ++ [d0])) ->
               fs w1 = fs w ->
               (Raise e, w1) = (r, w') ->
               dirs (fs w') = dirs (fs w)
               /\ (forall d, files (fs w') !! (src ++ [d])
                             = files (fs w) !! (src ++ [d]))
               /\ (forall key,
                      (forall d, d ∈ d0 :: rest ->
                         key <> copy_target (fs w) (src ++ [d]) (target ++ [d]))
                      -> files (fs w') !! key = files (fs w) !! key)
               /\ match r with
                  | Ok _ =>
                      log w' = log w
                        ++ concat (map (dep_events (fs w) src target) (d0 :: rest))
                      /\ forall d text,
                           d ∈ d0 :: rest ->
                           files (fs w) !! (src ++ [d]) = Some text ->
                           files (fs w')
                             !! copy_target (fs w) (src ++ [d]) (target ++ [d])
                           = Some text
                  | Raise e =>
                      exists d,
                        d ∈ d0 :: rest
                        /\ path_exists (fs w) (src ++ [d]) = true
                        /\ (e = IsADirectoryError (src ++ [d])
                            \/ e = SameFileError (src ++ [d]))
                  end).
    { intros e w1 Hex He Hfs [= <- <-]. rewrite Hfs.
      repeat split; try done. exists d0. split; [left|done]. }
    destruct (path_exists (fs w) (src ++ [d0])) eqn:Hex.
    + destruct (files (fs w) !! (src ++ [d0])) as [text0|] eqn:Hfile.
      * destruct (bool_decide _) eqn:Hsame.
        { refine (Hfail _ _ eq_refl (or_intror eq_refl) _ Hrun). reflexivity. }
        apply bool_decide_eq_false in Hsame.
        set (key0 := copy_target (fs w) (src ++ [d0]) (target ++ [d0])) in *.
        match type of Hrun with
        | for_each _ _ ?w1 = _ => set (w1' := w1) in *
        end.
        assert (Hdirs1 : dirs (fs w1') = dirs (fs w)) by reflexivity.
        assert (Hfiles1 : files (fs w1') = <[key0 := text0]> (files (fs w)))
          by reflexivity.
        assert (Hsrc1 : forall d, files (fs w1') !! (src ++ [d])
                                  = files (fs w) !! (src ++ [d])).
        { intros d. rewrite Hfiles1. apply lookup_insert_ne.
          by apply copy_target_source_key. }
        assert (Hexists1 : forall p, isdir (fs w1') p = isdir (fs w) p).
        { intros p. unfold isdir. by rewrite Hdirs1. }
        assert (Hkeys1 : forall d,
                   copy_target (fs w1') (src ++ [d]) (target ++ [d])
                   = copy_target (fs w) (src ++ [d]) (target ++ [d])).
        { intros d. unfold copy_target. by rewrite Hexists1. }
        assert (Hev1 : forall d, dep_events (fs w1') src target d
                                 = dep_events (fs w) src target d).
        { intros d. unfold dep_events, path_exists, isfile.
          by rewrite Hexists1, Hsrc1. }
        destruct (IH w1' r w' Hrun) as (Hd & Hs & Hframe & Hres).
        split; [congruence|]. split; [intros d; by rewrite Hs|].
        split.
        { intros key Hkey. rewrite Hframe.
          - rewrite Hfiles1. apply lookup_insert_ne. intros <-.
            apply (Hkey d0); [left|done].
          - intros d Hdin. rewrite Hkeys1. apply Hkey. by right. }
        destruct r as [[]|e].
        { destruct Hres as [Hlog Hcopied]. split.
          - rewrite Hlog. simpl. unfold dep_events at 2. rewrite Hex.
            rewrite (map_ext _ _ Hev1). simpl. rewrite <- !app_assoc.
            reflexivity.
          - intros d text Hdin Htext.
            destruct (decide (d ∈ rest)) as [Hin|Hnotin].
            + rewrite <- Hkeys1. apply Hcopied; [done|]. by rewrite Hsrc1.
            + apply elem_of_cons in Hdin as [->|]; [|done].
              rewrite Hframe.
              * rewrite Hfiles1. fold key0. rewrite lookup_insert_eq. congruence.
              * intros d Hdrest Heq. rewrite Hkeys1 in Heq.
                assert (d0 = d) as ->; [|done].
                rewrite <- (copy_target_last (fs w) src target d0).
                unfold key0 in Heq. rewrite Heq. apply copy_target_last. }
        { destruct Hres as (d & Hdin & Hdex & He).
          exists d. split; [by right|]. split; [|done].
          revert Hdex. unfold path_exists, isfile. by rewrite Hexists1, Hsrc1. }
      * refine (Hfail _ _ eq_refl (or_introl eq_refl) _ Hrun). reflexivity.
    + match type of Hrun with
      | for_each _ _ ?w1 = _ => set (w1' := w1) in *
      end.
      assert (Hfs1 : fs w1' = fs w) by reflexivity.
      destruct (IH w1' r w' Hrun) as (Hd & Hs & Hframe & Hres).
      rewrite Hfs1 in *.
      split; [done|]. split; [done|]. split.
      { intros key Hkey. apply Hframe. intros d Hdin. apply Hkey. by right. }
      destruct r as [[]|e].
      { destruct Hres as [Hlog Hcopied]. split.
        - rewrite Hlog. simpl. unfold dep_events at 2. rewrite Hex.
          simpl. rewrite <- !app_assoc. reflexivity.
        - intros d text Hdin Htext.
          apply elem_of_cons in Hdin as [->|Hdin]; [|by apply Hcopied].
          unfold path_exists, isfile in Hex. rewrite Htext in Hex.
          by rewrite orb_true_r in Hex. }
      { destruct Hres as (d & Hdin & Hdex & He).
        exists d. split; [by right|done]. }
Qed.

Lemma ancestors_self (p : Path) : p <> [] -> p ∈ ancestors p.
Proof.
  induction p as [|c q IH]; [done|]. intros _. simpl.
  destruct q as [|c' q']; [left|].
  right. apply list_elem_of_fmap. exists (c' :: q'). split; [done|].
  by apply IH.
Qed.

Lemma ensure_dir_spec target w :
  target <> [] ->
  exists w1,
    ensure_dir target w = (Ok tt, w1)
    /\ files (fs w1) = files (fs w)
    /\ log w1
       = log w ++ (if path_exists (fs w) target then [] else [EvMakedirs target])
    /\ (path_exists (fs w) target = false -> isdir (fs w1) target = true)
    /\ (isdir (fs w) target = true -> isdir (fs w1) target = true).
Proof.
  intros Hne. unfold ensure_dir, os_makedirs. unfold_monad.
  destruct (path_exists (fs w) target) eqn:Hex; simpl.
  - exists w. rewrite app_nil_r. done.
  - destruct target as [|c q]; [done|]. eexists. split; [reflexivity|].
    assert (isdir
              (fs (logged
                     (with_fs w
                        (with_dirs (fs w)
                           (dirs (fs w) ∪ list_to_set (ancestors (c :: q)))))
                     (EvMakedirs (c :: q))))
              (c :: q) = true) as Hmade.
    { unfold isdir. apply bool_decide_eq_true.
      cbn [fs logged with_fs dirs with_dirs].
      apply elem_of_union_r, elem_of_list_to_set.
      by apply (ancestors_self (c :: q)). }
    repeat split; done.
Qed.



(** ** Build directories: constructor and [clean] *)

Lemma below_refl p : below p p = true.
Proof. unfold below. by apply bool_decide_eq_true. Qed.

Lemma rmtree_spec p w :
  p ∉ undeletable (fs w) ->
  exists w',
    shutil_rmtree_ignore_errors p w = (Ok tt, w')
    /\ isdir (fs w') p = false
    /\ undeletable (fs w') = undeletable (fs w)
    /\ (forall q, isdir (fs w) q = false -> isdir (fs w') q = false)
    /\ calls w' = calls w.
Proof.
  intros Hdel. pose proof (silent_rmtree p w) as Hsil. revert Hsil.
  unfold shutil_rmtree_ignore_errors.
  rewrite (bool_decide_eq_false_2 _ Hdel). simpl negb. rewrite andb_true_r.
  destruct (isdir (fs w) p) eqn:Hdir; cbn [snd]; intros Hsil.
  - eexists. split; [reflexivity|].
    split; [|split; [done|split; [|exact Hsil]]].
    + unfold isdir. cbn [fs with_fs logged with_files with_dirs dirs].
      apply bool_decide_eq_false.
      intros [Hb _]%elem_of_filter. by rewrite below_refl in Hb.
    + intros q. unfold isdir. cbn [fs with_fs logged with_files with_dirs dirs].
      intros Hq%bool_decide_eq_false. apply bool_decide_eq_false.
      intros [_ Hin]%elem_of_filter. done.
  - eexists. split; [reflexivity|].
    split; [exact Hdir|]. split; [done|]. split; [|exact Hsil].
    intros q Hq. exact Hq.
Qed.

Lemma clean_one_spec d w :
  d ∉ undeletable (fs w) ->
  exists w',
    clean_one d w = (Ok tt, w')
    /\ isdir (fs w') d = false
    /\ undeletable (fs w') = undeletable (fs w)
    /\ (forall q, isdir (fs w) q = false -> isdir (fs w') q = false).
Proof.
  intros Hdel. unfold clean_one. unfold_monad.
  destruct (path_exists (fs w) d) eqn:Hex.
  - destruct (rmtree_spec d (logged w (EvPrint (MsgRemoving d))) Hdel)
      as (w1 & Hrm & Hgone & Hund & Hkeep & _).
    rewrite Hrm. eexists. split; [reflexivity|]. done.
  - exists w. repeat split; try done.
    unfold path_exists in Hex. by apply orb_false_iff in Hex as [? _].
Qed.

Lemma clean_spec self w :
  host_build_dir self ∉ undeletable (fs w) ->
  cross_build_dir self ∉ undeletable (fs w) ->
  exists w',
    clean self w = (Ok tt, w')
    /\ isdir (fs w') (host_build_dir self) = false
    /\ isdir (fs w') (cross_build_dir self) = false.
Proof.
  intros Hh Hc. unfold clean. simpl for_each. unfold mbind, M_bind, bind.
  destruct (clean_one_spec _ w Hh) as (w1 & -> & Hgone1 & Hund1 & _).
  rewrite <- Hund1 in Hc.
  destruct (clean_one_spec _ w1 Hc) as (w2 & -> & Hgone2 & _ & Hkeep).
  exists w2. split; [reflexivity|]. split; [by apply Hkeep|done].
Qed.

Lemma run_op_missing_dirs outside self o w :
  isdir (fs w) (host_build_dir self) = false ->
  isdir (fs w) (cross_build_dir self) = false ->
  exists r w',
    run_op outside self o w = (r, w')
    /\ no_working_dir self r /\ fs w' = fs w /\ calls w' = calls w.
Proof.
  intros Hh Hc.
  assert (Hstage : forall s jobs,
             exists w',
               stage_method outside self jobs s w
               = (Raise (FileNotFoundError (stage_dir self s)), w')
               /\ no_working_dir self
                    (Raise (FileNotFoundError (stage_dir self s)))
               /\ fs w' = fs w /\ calls w' = calls w).
  { intros s jobs.
    destruct (stage_method_missing_dir outside self jobs s w)
      as (w' & Hrun & Hfs & Hcalls); [by destruct s|].
    exists w'. split; [done|]. split; [|done].
    unfold no_working_dir. destruct s; simpl; auto. }
  destruct o as [s jobs| |jobs|]; simpl.
  - destruct (Hstage s jobs) as (w' & ? & ? & ? & ?). eauto 10.
  - destruct (Hstage HostConfigure 0%Z) as (w' & Hrun & ? & ? & ?).
    unfold configure. simpl in Hrun. rewrite Hrun. eauto 10.
  - destruct (Hstage HostBuild jobs) as (w' & Hrun & ? & ? & ?).
    unfold build, mbind, M_bind, bind. simpl in Hrun. rewrite Hrun. eauto 10.
  - destruct (Hstage HostInstall 0%Z) as (w' & Hrun & ? & ? & ?).
    unfold install, mbind, M_bind, bind. simpl in Hrun. rewrite Hrun. eauto 10.
Qed.

Lemma run_ops_missing_dirs outside self ops :
  forall w,
    isdir (fs w) (host_build_dir self) = false ->
    isdir (fs w) (cross_build_dir self) = false ->
    Forall (no_working_dir self) (fst (run_ops outside self ops w))
    /\ fs (snd (run_ops outside self ops w)) = fs w
    /\ calls (snd (run_ops outside self ops w)) = calls w.
Proof.
  induction ops as [|o rest IH]; intros w Hh Hc; simpl; [done|].
  destruct (run_op_missing_dirs outside self o w Hh Hc)
    as (r & w1 & -> & Hr & Hfs & Hcalls).
  rewrite <- Hfs in Hh, Hc. destruct (IH w1 Hh Hc) as (Hall & Hfs' & Hcalls').
  destruct (run_ops outside self rest w1) as [rs w2]. simpl in *.
  split; [by constructor|]. split; congruence.
Qed.

Lemma ensure_dir_exists target w :
  target <> [] ->
  exists w1,
    ensure_dir target w = (Ok tt, w1)
    /\ path_exists (fs w1) target = true
    /\ (forall p, path_exists (fs w) p = true -> path_exists (fs w1) p = true)
    /\ calls w1 = calls w.
Proof.
  intros Hne.
  destruct (ensure_dir_spec target w Hne) as (w1 & Hrun & Hfiles & _ & Hnew & _).
  exists w1. split; [done|].
  pose proof (silent_ensure_dir target w) as Hsil. rewrite Hrun in Hsil.
  assert (Hmono : forall p, path_exists (fs w) p = true
                            -> path_exists (fs w1) p = true).
  { revert Hrun. unfold ensure_dir, os_makedirs. unfold_monad.
    destruct (path_exists (fs w) target); simpl.
    - by intros [= <-].
    - destruct target; [done|]. intros [= <-] p.
      unfold path_exists, isdir, isfile. cbn [fs logged with_fs dirs with_dirs files].
      intros [Hd|Hf]%orb_true_iff; apply orb_true_iff; [left|by right].
      apply bool_decide_eq_true. apply bool_decide_eq_true in Hd.
      by apply elem_of_union_l. }
  split; [|done].
  destruct (path_exists (fs w) target) eqn:Hex; [by apply Hmono|].
  unfold path_exists. by rewrite Hnew.
Qed.

Lemma init_creates_build_dirs outside src cfg w self w' :
  Qt6Build_init outside src cfg w = (Ok self, w') ->
  host_build_dir self = src ++ ["build"; "host"]
  /\ cross_build_dir self = src ++ ["build"; build_type cfg]
  /\ path_exists (fs w') (host_build_dir self) = true
  /\ path_exists (fs w') (cross_build_dir self) = true.
Proof.
  unfold Qt6Build_init.
  destruct (negb (bool_decide _)); [discriminate|].
  intros H.
  apply bind_ok_inv in H as (w0 & w1 & [= <- <-] & H).
  apply bind_ok_inv in H as (cmake & w1 & _ & H).
  apply bind_ok_inv in H as ([] & w2 & H1 & H).
  apply bind_ok_inv in H as ([] & w3 & H2 & [= <- <-]).
  simpl.
  destruct (ensure_dir_exists (src ++ ["build"; "host"]) w1)
    as (w2' & Hr1 & Hex1 & _); [by destruct src|].
  destruct (ensure_dir_exists (src ++ ["build"; build_type cfg]) w2)
    as (w3' & Hr2 & Hex2 & Hmono & _); [by destruct src|].
  rewrite H1 in Hr1. injection Hr1 as <-.
  rewrite H2 in Hr2. injection Hr2 as <-.
  repeat split; [by apply Hmono|done].
Qed.


(** * Further properties *)

(** ** More on [strip] *)

Lemma isspace_LF : PyStr.isspace PyStr.LF = true.
Proof. reflexivity. Qed.

Lemma rstrip_app_newline s :
  PyStr.rstrip (s +:+ PyStr.newline) = PyStr.rstrip s.
Proof.
  induction s as [|c s IH]; [reflexivity|].
  change (String c s +:+ PyStr.newline) with (String c (s +:+ PyStr.newline)).
  cbn [PyStr.rstrip]. by rewrite IH.
Qed.

Lemma lstrip_head s :
  PyStr.lstrip s = EmptyString
  \/ exists c t, PyStr.lstrip s = String c t /\ PyStr.isspace c = false.
Proof.
  induction s as [|c s IH]; simpl; [by left|].
  destruct (PyStr.isspace c) eqn:Hc; [done|]. right. eauto.
Qed.

Lemma lstrip_app_newline s :
  PyStr.lstrip (s +:+ PyStr.newline)
  = match PyStr.lstrip s with
    | EmptyString => EmptyString
    | t => t +:+ PyStr.newline
    end.
Proof.
  induction s as [|c s IH]; [reflexivity|].
  change (String c s +:+ PyStr.newline) with (String c (s +:+ PyStr.newline)).
  cbn [PyStr.lstrip]. destruct (PyStr.isspace c); [exact IH|reflexivity].
Qed.

Lemma strip_app_newline s :
  PyStr.strip (s +:+ PyStr.newline) = PyStr.strip s.
Proof.
  unfold PyStr.strip. rewrite lstrip_app_newline.
  destruct (PyStr.lstrip s) as [|c t]; [reflexivity|].
  apply rstrip_app_newline.
Qed.

Lemma rstrip_idem s : PyStr.rstrip (PyStr.rstrip s) = PyStr.rstrip s.
Proof.
  induction s as [|c s IH]; [reflexivity|]. cbn [PyStr.rstrip].
  destruct (PyStr.rstrip s) as [|c' r] eqn:Hr.
  - destruct (PyStr.isspace c) eqn:Hc; [reflexivity|].
    cbn [PyStr.rstrip]. by rewrite Hc.
  - cbn [PyStr.rstrip] in *. by rewrite IH.
Qed.

Lemma rstrip_keeps_head c s :
  PyStr.isspace c = false ->
  exists t, PyStr.rstrip (String c s) = String c t.
Proof.
  intros Hc. cbn [PyStr.rstrip]. rewrite Hc.
  destruct (PyStr.rstrip s); eauto.
Qed.

Lemma strip_idem s : PyStr.strip (PyStr.strip s) = PyStr.strip s.
Proof.
  unfold PyStr.strip.
  destruct (lstrip_head s) as [->|(c & t & -> & Hc)]; [reflexivity|].
  destruct (rstrip_keeps_head c t Hc) as [t' Ht].
  assert (PyStr.lstrip (PyStr.rstrip (String c t)) = PyStr.rstrip (String c t))
    as ->.
  { rewrite Ht. cbn [PyStr.lstrip]. by rewrite Hc. }
  apply rstrip_idem.
Qed.

Lemma all_chars_lstrip p s :
  PyStr.all_chars p s = true -> PyStr.all_chars p (PyStr.lstrip s) = true.
Proof.
  induction s as [|c s IH]; [done|]. cbn [PyStr.lstrip].
  destruct (PyStr.isspace c); [|done].
  simpl. intros [_ Hs]%andb_prop. by apply IH.
Qed.

Lemma all_chars_rstrip p s :
  PyStr.all_chars p s = true -> PyStr.all_chars p (PyStr.rstrip s) = true.
Proof.
  induction s as [|c s IH]; [done|]. simpl.
  intros [Hc Hs]%andb_prop. specialize (IH Hs).
  destruct (PyStr.rstrip s) as [|c' r].
  - destruct (PyStr.isspace c); [done|]. simpl. by rewrite Hc.
  - simpl in *. by rewrite Hc, IH.
Qed.

Lemma all_chars_strip p s :
  PyStr.all_chars p s = true -> PyStr.all_chars p (PyStr.strip s) = true.
Proof.
  intros Hs. by apply all_chars_rstrip, all_chars_lstrip.
Qed.

Lemma all_chars_split_head p sep s :
  PyStr.all_chars p s = true ->
  PyStr.all_chars p (PyStr.split_head sep s) = true.
Proof.
  induction s as [|c s IH]; [done|]. simpl.
  intros [Hc Hs]%andb_prop. destruct (Ascii.eqb c sep); [done|].
  simpl. by rewrite Hc, IH.
Qed.

Lemma split_head_no_sep sep s :
  PyStr.all_chars (fun c => negb (Ascii.eqb c sep)) (PyStr.split_head sep s)
  = true.
Proof.
  induction s as [|c s IH]; [done|]. simpl.
  destruct (Ascii.eqb c sep) eqn:Hc; [done|]. simpl. by rewrite Hc, IH.
Qed.

Lemma all_chars_and p q s :
  PyStr.all_chars p s = true -> PyStr.all_chars q s = true ->
  PyStr.all_chars (fun c => p c && q c) s = true.
Proof.
  induction s as [|c s IH]; [done|]. simpl.
  intros [-> Hp]%andb_prop [-> Hq]%andb_prop. by rewrite IH.
Qed.

Lemma extract_hash_clean stdout :
  PyStr.strip (extract_hash stdout) = extract_hash stdout
  /\ PyStr.all_chars not_separator (extract_hash stdout) = true.
Proof.
  unfold extract_hash. split; [apply strip_idem|].
  apply all_chars_strip. unfold not_separator.
  apply all_chars_and; [apply split_head_no_sep|].
  apply all_chars_split_head, split_head_no_sep.
Qed.

(** ** The fetcher: errors and frame *)

Lemma fetch_eq git self branch w :
  fetch_latest_commit_hash git self branch w
  = (match git [git_exe self; "ls-remote"; repo_url self; branch] with
     | GitCompleted stdout =>
         if PyStr.truthy (PyStr.strip stdout) then
           if rejects_hash (extract_hash stdout) then
             Raise (CommitHashFetcherError
                      ("Error fetching commit hash: "
                         +:+ "Invalid commit hash format: "
                         +:+ extract_hash stdout))
           else Ok (extract_hash stdout)
         else
           Raise (CommitHashFetcherError
                    ("Error fetching commit hash: "
                       +:+ "No output from git ls-remote for "
                       +:+ repo_url self))
     | GitTimedOut =>
         Raise (CommitHashFetcherError
                  ("Timeout while fetching commit hash from " +:+ repo_url self))
     | GitExited _ stderr =>
         Raise (CommitHashFetcherError
                  ("Failed to fetch commit hash from " +:+ repo_url self
                     +:+ ": " +:+ stderr))
     | GitNotStarted msg =>
         Raise (CommitHashFetcherError ("Error fetching commit hash: " +:+ msg))
     end, w).
Proof.
  unfold fetch_latest_commit_hash, subprocess_run_git, extract_hash.
  unfold_monad.
  destruct (git _) as [stdout| |rc err|msg]; try reflexivity.
  destruct (PyStr.truthy (PyStr.strip stdout)); simpl; [|reflexivity].
  destruct (rejects_hash _); reflexivity.
Qed.

(** X1: the fetch leaves the world as it is, and whatever goes wrong (a
    timeout, a non-zero exit, a process that cannot be started, empty or
    malformed output) reaches the caller as a [CommitHashFetcherError]. *)
Theorem fetch_raises_only_fetcher_errors git self branch w :
  snd (fetch_latest_commit_hash git self branch w) = w
  /\ forall e,
       fst (fetch_latest_commit_hash git self branch w) = Raise e ->
       exists msg, e = CommitHashFetcherError msg.
Proof.
  rewrite fetch_eq. split; [reflexivity|]. cbn [fst].
  destruct (git _) as [stdout| |rc err|msg]; try (intros e [= <-]; eauto).
  destruct (PyStr.truthy _); [destruct (rejects_hash _)|];
    intros e [= <-]; eauto.
Qed.

(** X2: an error raised inside the [try] block is caught by the last
    handler and wrapped once more: empty output and a hash of the wrong
    length are reported with the prefix "Error fetching commit hash: " in
    front of their own message. *)
Theorem fetch_rewraps_its_own_errors git self branch stdout w :
  git [git_exe self; "ls-remote"; repo_url self; branch] = GitCompleted stdout ->
  (PyStr.strip stdout = EmptyString ->
   fst (fetch_latest_commit_hash git self branch w)
   = Raise (CommitHashFetcherError
              ("Error fetching commit hash: No output from git ls-remote for "
                 +:+ repo_url self)))
  /\ (PyStr.strip stdout <> EmptyString ->
      String.length (extract_hash stdout) <> 40 ->
      fst (fetch_latest_commit_hash git self branch w)
      = Raise (CommitHashFetcherError
                 ("Error fetching commit hash: Invalid commit hash format: "
                    +:+ extract_hash stdout))).
Proof.
  intros Hgit. rewrite fetch_eq, Hgit. cbn [fst]. split.
  - intros ->. reflexivity.
  - intros Hne Hlen. destruct (PyStr.strip stdout); [done|]. cbn [PyStr.truthy].
    assert (rejects_hash (extract_hash stdout) = true) as ->; [|reflexivity].
    destruct (rejects_hash _) eqn:Hrej; [done|]. exfalso. apply Hlen.
    apply is_valid_hash_length. unfold is_valid_hash. by rewrite Hrej.
Qed.

Lemma fetch_rewraps_its_own_errors_witness :
  fst (fetch_latest_commit_hash (answers "   ") pin_fetcher "HEAD" empty_world)
  = Raise (CommitHashFetcherError
             ("Error fetching commit hash: No output from git ls-remote for "
                +:+ repo_url pin_fetcher)).
Proof.
  refine (proj1 (fetch_rewraps_its_own_errors (answers "   ") pin_fetcher
                   "HEAD" "   " empty_world _) _); reflexivity.
Defined.

(** X3: a hash returned by the fetch has exactly 40 characters, no
    whitespace at either end, and contains neither a tab nor a newline. *)
Theorem fetched_hash_is_one_trimmed_field git self branch w h w' :
  fetch_latest_commit_hash git self branch w = (Ok h, w') ->
  String.length h = 40
  /\ PyStr.strip h = h
  /\ PyStr.all_chars not_separator h = true.
Proof.
  intros Hf. split; [by apply (fetch_ok_length _ _ _ _ _ _ Hf)|].
  rewrite fetch_eq in Hf.
  destruct (git _) as [stdout| |rc err|msg]; try discriminate.
  destruct (PyStr.truthy _); [|discriminate].
  destruct (rejects_hash _); [discriminate|].
  injection Hf as <- _. apply extract_hash_clean.
Qed.

Lemma fetched_hash_is_one_trimmed_field_witness :
  String.length good_hash = 40
  /\ PyStr.strip good_hash = good_hash
  /\ PyStr.all_chars not_separator good_hash = true.
Proof.
  apply (fetched_hash_is_one_trimmed_field
           (answers (ls_remote_line good_hash "refs/heads/main"))
           pin_fetcher "HEAD" empty_world good_hash empty_world).
  vm_compute; reflexivity.
Defined.

Lemma update_fetched_eq git self w :
  update_commit_hash_file git self None w
  = match fetch_latest_commit_hash git self "HEAD" w with
    | (Ok h, _) => update_commit_hash_file git self (Some h) w
    | (Raise e, _) => (Raise e, w)
    end.
Proof.
  pose proof (fetch_raises_only_fetcher_errors git self "HEAD" w) as [Hw _].
  unfold update_commit_hash_file. unfold mbind at 1, M_bind at 1, bind at 1.
  destruct (fetch_latest_commit_hash git self "HEAD" w) as [[h|e] w1];
    simpl in Hw; subst w1; reflexivity.
Qed.

(** X4: when the fetch fails, an update without argument raises that very
    error and stops there, the world being the one before the call: nothing
    is written and nothing is printed.  And whatever makes an update raise,
    every file other than the pin file, the directories and the search
    path are as before. *)
Theorem failed_update_spares_everything_else git self w :
  (forall e w1,
      fetch_latest_commit_hash git self "HEAD" w = (Raise e, w1) ->
      update_commit_hash_file git self None w = (Raise e, w))
  /\ forall arg e w',
       update_commit_hash_file git self arg w = (Raise e, w') ->
       (forall p, p <> commit_hash_file self ->
                  files (fs w') !! p = files (fs w) !! p)
       /\ dirs (fs w') = dirs (fs w)
       /\ environ_PATH w' = environ_PATH w.
Proof.
  split.
  - intros e w1 Hf. by rewrite update_fetched_eq, Hf.
  - assert (Hgiven : forall h e w',
               update_commit_hash_file git self (Some h) w = (Raise e, w') ->
               w' = w).
    { intros h e w'. rewrite update_given_eq.
      destruct (open_for_writing_fails _ _); [|discriminate].
      by intros [= <- <-]. }
    intros arg e w' Hup.
    assert (w' = w) as ->; [|done].
    destruct arg as [h|]; [by apply (Hgiven h e)|].
    rewrite update_fetched_eq in Hup.
    destruct (fetch_latest_commit_hash git self "HEAD" w) as [[h|e0] w1].
    + by apply (Hgiven h e).
    + by injection Hup as <- <-.
Qed.

(** X5: a successful update replaces the content of the pin file and
    touches nothing else: every other file, the directories and the search
    path are as before, and the log gains the write and its report. *)
Theorem update_touches_only_the_pin_file git self arg w h w' :
  update_commit_hash_file git self arg w = (Ok h, w') ->
  (forall p, p <> commit_hash_file self ->
             files (fs w') !! p = files (fs w) !! p)
  /\ dirs (fs w') = dirs (fs w)
  /\ environ_PATH w' = environ_PATH w
  /\ log w'
     = log w ++ [EvWrite (commit_hash_file self) (h +:+ PyStr.newline);
                 EvPrint (MsgHashUpdated (commit_hash_file self) h)].
Proof.
  assert (Hgiven : forall v,
             update_commit_hash_file git self (Some v) w = (Ok h, w') ->
             (forall p, p <> commit_hash_file self ->
                        files (fs w') !! p = files (fs w) !! p)
             /\ dirs (fs w') = dirs (fs w)
             /\ environ_PATH w' = environ_PATH w
             /\ log w'
                = log w
                    ++ [EvWrite (commit_hash_file self) (h +:+ PyStr.newline);
                        EvPrint (MsgHashUpdated (commit_hash_file self) h)]).
  { intros v. rewrite update_given_eq. destruct (open_for_writing_fails _ _); [discriminate|].
    intros [= <- <-]. cbn [fs files dirs environ_PATH log logged with_fs
                             with_files].
    split; [|split; [done|split; [done|]]].
    - intros p Hp. by apply lookup_insert_ne.
    - by rewrite <- app_assoc. }
  destruct arg as [v|]; [apply Hgiven|].
  rewrite update_fetched_eq.
  destruct (fetch_latest_commit_hash git self "HEAD" w) as [[v|e0] w1];
    [apply Hgiven|discriminate].
Qed.

Lemma update_touches_only_the_pin_file_witness :
  dirs (fs (snd (update_commit_hash_file (answers "") pin_fetcher
                   (Some good_hash) demo_world)))
  = dirs (fs demo_world).
Proof.
  refine (proj1 (proj2 (update_touches_only_the_pin_file (answers "")
                          pin_fetcher (Some good_hash) demo_world good_hash
                          _ _))).
  vm_compute; reflexivity.
Defined.

Lemma read_eq self w :
  read_commit_hash_file self w
  = (Ok match files (fs w) !! commit_hash_file self with
        | Some text =>
            if bool_decide (commit_hash_file self ∈ unreadable (fs w)) then None
            else if PyStr.truthy (PyStr.strip (PyStr.universal_newlines text))
                 then Some (PyStr.strip (PyStr.universal_newlines text))
                 else None
        | None => None
        end, w).
Proof.
  unfold read_commit_hash_file, read_text, path_exists, isfile. unfold_monad.
  destruct (files (fs w) !! commit_hash_file self) as [text|] eqn:Hfile.
  - rewrite orb_true_r. simpl. rewrite Hfile.
    destruct (bool_decide _); [reflexivity|]. simpl.
    destruct (PyStr.truthy _); reflexivity.
  - rewrite orb_false_r. destruct (isdir (fs w) (commit_hash_file self)); simpl.
    + by rewrite Hfile.
    + reflexivity.
Qed.

(** X6: reading the pin file leaves the world as it is; a value it
    returns is never empty and has no whitespace at either end, and when
    the file does not exist it returns [None]. *)
Theorem read_returns_trimmed_values self w :
  snd (read_commit_hash_file self w) = w
  /\ (forall content,
        fst (read_commit_hash_file self w) = Ok (Some content) ->
        content <> EmptyString /\ PyStr.strip content = content)
  /\ (path_exists (fs w) (commit_hash_file self) = false ->
      fst (read_commit_hash_file self w) = Ok None).
Proof.
  rewrite read_eq. cbn [fst snd]. split; [reflexivity|]. split.
  - intros content.
    destruct (files (fs w) !! commit_hash_file self) as [text|]; [|discriminate].
    destruct (bool_decide _); [discriminate|].
    destruct (PyStr.truthy (PyStr.strip _)) eqn:Ht; [|discriminate].
    intros [= <-]. split; [|apply strip_idem].
    by destruct (PyStr.strip _).
  - unfold path_exists, isfile. intros [_ Hf]%orb_false_iff.
    by destruct (files (fs w) !! commit_hash_file self).
Qed.

(** X7: round trip for any value without a carriage return: reading after
    a successful update with [v] returns [v] trimmed, and [None] when [v] is
    empty or consists of whitespace only (the file can be opened for
    reading). *)
Theorem read_after_update_any_value git self v w r w' :
  PyStr.all_chars no_CR v = true ->
  update_commit_hash_file git self (Some v) w = (Ok r, w') ->
  commit_hash_file self ∉ unreadable (fs w) ->
  read_commit_hash_file self w'
  = (Ok (if PyStr.truthy (PyStr.strip v) then Some (PyStr.strip v) else None),
     w').
Proof.
  intros Hv. rewrite update_given_eq.
  destruct (open_for_writing_fails _ _); [discriminate|].
  intros [= <- <-] Hreadable. rewrite read_eq.
  cbn [fs files unreadable logged with_fs with_files].
  rewrite lookup_insert_eq, (bool_decide_eq_false_2 _ Hreadable).
  by rewrite (read_back_newline _ Hv), strip_app_newline.
Qed.

Lemma read_after_update_any_value_witness :
  let w' := snd (update_commit_hash_file (answers "") pin_fetcher
                   (Some "  v6.5.0 ") pin_dir_world) in
  read_commit_hash_file pin_fetcher w' = (Ok (Some "v6.5.0"), w').
Proof.
  refine (read_after_update_any_value (answers "") pin_fetcher "  v6.5.0 "
            pin_dir_world "  v6.5.0 " _ _ _ _).
  - vm_compute; reflexivity.
  - vm_compute; reflexivity.
  - intros H. vm_compute in H. discriminate H.
Defined.

(** ** The constructor of [Qt6Build] *)

Lemma ensure_dir_eq target w :
  ensure_dir target w
  = if path_exists (fs w) target then (Ok tt, w) else os_makedirs target w.
Proof.
  unfold ensure_dir. unfold_monad. by destruct (path_exists (fs w) target).
Qed.

Lemma ensure_dir_frame target w r w1 :
  ensure_dir target w = (r, w1) ->
  files (fs w1) = files (fs w)
  /\ environ_PATH w1 = environ_PATH w
  /\ (forall p, isdir (fs w) p = true -> isdir (fs w1) p = true)
  /\ (path_exists (fs w) target = true -> w1 = w).
Proof.
  rewrite ensure_dir_eq. destruct (path_exists (fs w) target).
  - intros [= <- <-]. done.
  - unfold os_makedirs. destruct target as [|c q]; intros [= <- <-]; [done|].
    cbn [fs files environ_PATH logged with_fs with_dirs].
    repeat split; try done.
    intros p. unfold isdir. cbn [dirs]. intros Hp%bool_decide_eq_true.
    apply bool_decide_eq_true. by apply elem_of_union_l.
Qed.

Lemma init_eq outside src cfg w :
  Qt6Build_init outside src cfg w
  = if negb (bool_decide (platform_system outside ∈ supported_systems))
    then (Raise EnvironmentError, w)
    else
      match
        (if isfile (fs w) (sdk_cmake outside cfg)
         then Some (sdk_cmake outside cfg, w)
         else match which_cmake outside with
              | Some (c :: cs) =>
                  Some (c :: cs,
                        logged w (EvPrint (MsgUsingSystemCmake
                                             (path_str (c :: cs)))))
              | _ => None
              end)
      with
      | None => (Raise EnvironmentError, w)
      | Some (cmake, w1) =>
          (ensure_dir (src ++ ["build"; "host"]);;
           ensure_dir (src ++ ["build"; build_type cfg]);;
           mret (mkQt6Build src cfg (platform_system outside) cmake
                   (src ++ ["build"; "host"])
                   (src ++ ["build"; build_type cfg]))) w1
      end.
Proof.
  unfold Qt6Build_init, sdk_cmake.
  destruct (negb (bool_decide _)); [reflexivity|].
  unfold mbind at 1, M_bind at 1, bind at 1. unfold get_world at 1.
  unfold mbind at 1, M_bind at 1, bind at 1.
  destruct (isfile (fs w) _); simpl negb; cbv iota.
  - reflexivity.
  - destruct (which_cmake outside) as [[|c cs]|]; reflexivity.
Qed.

(** X8: on a platform other than the three supported ones, or when
    neither the SDK's driver file nor a driver on the search path exists,
    the constructor raises [EnvironmentError] before it has created any
    directory or printed anything: the world is the one before the call. *)
Theorem init_refuses_without_platform_or_cmake outside src cfg w :
  platform_system outside ∉ supported_systems \/ no_cmake outside cfg w ->
  Qt6Build_init outside src cfg w = (Raise EnvironmentError, w).
Proof.
  rewrite init_eq. unfold no_cmake.
  destruct (bool_decide (platform_system outside ∈ supported_systems)) eqn:Hsys;
    simpl negb; cbv iota; [|done].
  apply bool_decide_eq_true in Hsys.
  intros [Hno|[Hsdk Hwhich]]; [done|].
  rewrite Hsdk. by destruct (which_cmake outside) as [[|c cs]|].
Qed.

Lemma init_refuses_without_platform_or_cmake_witness :
  Qt6Build_init tools_without_cmake ["src"] demo_config empty_world
  = (Raise EnvironmentError, empty_world).
Proof.
  apply (init_refuses_without_platform_or_cmake tools_without_cmake ["src"]
           demo_config empty_world).
  right. split; vm_compute; reflexivity.
Defined.

(** X9: a constructed instance uses the SDK's driver when that file
    exists and otherwise the driver found on the search path (announcing
    it); its platform is a supported one and its two build directories are
    [build/host] and [build/<build type>] under the source directory. *)
Theorem init_resolves_cmake outside src cfg w self w' :
  Qt6Build_init outside src cfg w = (Ok self, w') ->
  system self = platform_system outside
  /\ system self ∈ supported_systems
  /\ source_dir self = src /\ config self = cfg
  /\ host_build_dir self = src ++ ["build"; "host"]
  /\ cross_build_dir self = src ++ ["build"; build_type cfg]
  /\ (isfile (fs w) (sdk_cmake outside cfg) = true ->
      cmake_cmd self = sdk_cmake outside cfg)
  /\ (isfile (fs w) (sdk_cmake outside cfg) = false ->
      which_cmake outside = Some (cmake_cmd self)
      /\ EvPrint (MsgUsingSystemCmake (path_str (cmake_cmd self))) ∈ log w').
Proof.
  rewrite init_eq.
  destruct (bool_decide (platform_system outside ∈ supported_systems)) eqn:Hsys;
    simpl negb; cbv iota; [|discriminate].
  apply bool_decide_eq_true in Hsys.
  assert (Hrun : forall cmake w1,
             (ensure_dir (src ++ ["build"; "host"]);;
              ensure_dir (src ++ ["build"; build_type cfg]);;
              mret (mkQt6Build src cfg (platform_system outside) cmake
                      (src ++ ["build"; "host"])
                      (src ++ ["build"; build_type cfg]))) w1
             = (Ok self, w') ->
             self = mkQt6Build src cfg (platform_system outside) cmake
                      (src ++ ["build"; "host"])
                      (src ++ ["build"; build_type cfg])
             /\ exists l, log w' = log w1 ++ l).
  { intros cmake w1 H.
    apply bind_ok_inv in H as ([] & w2 & H1 & H).
    apply bind_ok_inv in H as ([] & w3 & H2 & [= <- <-]).
    split; [done|].
    rewrite ensure_dir_eq in H1, H2. unfold os_makedirs in H1, H2.
    destruct (path_exists (fs w1) _);
      [injection H1 as <-|destruct (src ++ ["build"; "host"]);
                          [discriminate|injection H1 as <-]];
      (destruct (path_exists _ _);
       [injection H2 as <-|destruct (src ++ ["build"; build_type cfg]);
                           [discriminate|injection H2 as <-]]);
      cbn [log logged with_fs]; eexists;
      rewrite <- ?app_assoc; try reflexivity; by rewrite app_nil_r. }
  destruct (isfile (fs w) (sdk_cmake outside cfg)) eqn:Hsdk.
  - intros H. destruct (Hrun _ _ H) as [-> _]. simpl. repeat split; done.
  - destruct (which_cmake outside) as [[|c cs]|] eqn:Hwhich; try discriminate.
    intros H. destruct (Hrun _ _ H) as [-> [l Hlog]]. simpl.
    repeat split; try done.
    rewrite Hlog. cbn [log logged]. apply elem_of_app. left.
    apply elem_of_app. right. left.
Qed.

Lemma init_resolves_cmake_witness :
  cmake_cmd (mkQt6Build ["src"] demo_config "Linux" ["usr"; "bin"; "cmake"]
               ["src"; "build"; "host"] ["src"; "build"; "release"])
  = ["usr"; "bin"; "cmake"]
  /\ which_cmake tools_ok = Some ["usr"; "bin"; "cmake"].
Proof.
  pose proof (init_resolves_cmake tools_ok ["src"] demo_config empty_world
                (mkQt6Build ["src"] demo_config "Linux" ["usr"; "bin"; "cmake"]
                   ["src"; "build"; "host"] ["src"; "build"; "release"])
                (snd (Qt6Build_init tools_ok ["src"] demo_config empty_world))
                ltac:(vm_compute; reflexivity))
    as (_ & _ & _ & _ & _ & _ & _ & Hsys).
  destruct Hsys as [Hwhich _]; [vm_compute; reflexivity|].
  split; [reflexivity|exact Hwhich].
Defined.

(** X10: constructing an instance never removes or rewrites anything: all
    files and the search path are as before and every directory is still
    there; when both build directories already exist the file system is
    left exactly as it was. *)
Theorem init_only_adds_directories outside src cfg w self w' :
  Qt6Build_init outside src cfg w = (Ok self, w') ->
  files (fs w') = files (fs w)
  /\ environ_PATH w' = environ_PATH w
  /\ (forall p, isdir (fs w) p = true -> isdir (fs w') p = true)
  /\ (path_exists (fs w) (src ++ ["build"; "host"]) = true ->
      path_exists (fs w) (src ++ ["build"; build_type cfg]) = true ->
      fs w' = fs w).
Proof.
  rewrite init_eq.
  destruct (negb (bool_decide _)); [discriminate|].
  assert (Hrun : forall cmake w1,
             fs w1 = fs w -> environ_PATH w1 = environ_PATH w ->
             (ensure_dir (src ++ ["build"; "host"]);;
              ensure_dir (src ++ ["build"; build_type cfg]);;
              mret (mkQt6Build src cfg (platform_system outside) cmake
                      (src ++ ["build"; "host"])
                      (src ++ ["build"; build_type cfg]))) w1
             = (Ok self, w') ->
             files (fs w') = files (fs w)
             /\ environ_PATH w' = environ_PATH w
             /\ (forall p, isdir (fs w) p = true -> isdir (fs w') p = true)
             /\ (path_exists (fs w) (src ++ ["build"; "host"]) = true ->
                 path_exists (fs w) (src ++ ["build"; build_type cfg]) = true ->
                 fs w' = fs w)).
  { intros cmake w1 Hfs Henv H.
    apply bind_ok_inv in H as ([] & w2 & H1 & H).
    apply bind_ok_inv in H as ([] & w3 & H2 & [= <- <-]).
    apply ensure_dir_frame in H1 as (Hf1 & He1 & Hd1 & Hsame1).
    apply ensure_dir_frame in H2 as (Hf2 & He2 & Hd2 & Hsame2).
    rewrite Hfs in *.
    split; [congruence|]. split; [congruence|]. split; [auto|].
    intros Hh Hc. rewrite Hsame2.
    - rewrite Hsame1 by done. done.
    - rewrite Hsame1 by done. by rewrite Hfs. }
  destruct (isfile (fs w) (sdk_cmake outside cfg)).
  - by apply Hrun.
  - destruct (which_cmake outside) as [[|c cs]|]; try discriminate.
    by apply Hrun.
Qed.

Lemma init_only_adds_directories_witness :
  fs (snd (Qt6Build_init tools_ok ["src"] demo_config demo_world))
  = fs demo_world.
Proof.
  refine (proj2 (proj2 (proj2
            (init_only_adds_directories tools_ok ["src"] demo_config demo_world
               (mkQt6Build ["src"] demo_config "Linux" ["usr"; "bin"; "cmake"]
                  ["src"; "build"; "host"] ["src"; "build"; "release"])
               _ _))) _ _); vm_compute; reflexivity.
Defined.

(** ** Environment preparation, again *)

Lemma setup_environment_eq self w :
  setup_environment self w
  = let sep := os_pathsep (system self) in
    let cmake := sdk_cmake_bin (config self) in
    let w1 :=
      if isdir (fs w) cmake then
        logged
          (logged
             (with_PATH w (path_str cmake +:+ sep +:+ default "" (environ_PATH w)))
             (EvPutenvPath
                (path_str cmake +:+ sep +:+ default "" (environ_PATH w))))
          (EvPrint (MsgCmakeOnPath cmake))
      else logged w (EvPrint (MsgWarnNoSdkCmake cmake)) in
    match build_tool_mingw (config self) with
    | Some p =>
        if path_truthy (Some p) && isdir (fs w1) p then
          (Ok tt,
           logged
             (logged
                (with_PATH w1
                   (path_str p +:+ sep +:+ default "" (environ_PATH w1)))
                (EvPutenvPath
                   (path_str p +:+ sep +:+ default "" (environ_PATH w1))))
             (EvPrint (MsgMingwOnPath p)))
        else (Ok tt, w1)
    | None => (Ok tt, w1)
    end.
Proof.
  unfold setup_environment, putenv_PATH. unfold_monad. cbv zeta.
  destruct (isdir (fs w) (sdk_cmake_bin (config self))); simpl;
    destruct (build_tool_mingw (config self)) as [[|c cs]|]; simpl;
    try reflexivity;
    match goal with |- context [isdir ?f ?p] => destruct (isdir f p) end;
    reflexivity.
Qed.

(** X11: environment preparation does not look at what the search path
    already holds: called twice with both directories in place, it puts the
    two locations in front a second time. *)
Theorem setup_environment_twice_duplicates self w mingw :
  isdir (fs w) (sdk_cmake_bin (config self)) = true ->
  build_tool_mingw (config self) = Some mingw ->
  mingw <> [] ->
  isdir (fs w) mingw = true ->
  environ_PATH (snd (setup_environment self (snd (setup_environment self w))))
  = Some (path_str mingw +:+ os_pathsep (system self)
            +:+ path_str (sdk_cmake_bin (config self))
            +:+ os_pathsep (system self)
            +:+ path_str mingw +:+ os_pathsep (system self)
            +:+ path_str (sdk_cmake_bin (config self))
            +:+ os_pathsep (system self)
            +:+ default "" (environ_PATH w)).
Proof.
  intros Hcmake Hmingw Hne Hdir.
  assert (Hone : forall w0,
             fs w0 = fs w ->
             fs (snd (setup_environment self w0)) = fs w
             /\ environ_PATH (snd (setup_environment self w0))
                = Some (path_str mingw +:+ os_pathsep (system self)
                          +:+ path_str (sdk_cmake_bin (config self))
                          +:+ os_pathsep (system self)
                          +:+ default "" (environ_PATH w0))).
  { intros w0 Hfs. rewrite setup_environment_eq. cbv zeta.
    rewrite Hfs, Hcmake, Hmingw.
    destruct mingw as [|c cs]; [done|].
    cbn [path_truthy andb fs logged with_PATH].
    rewrite Hfs, Hdir. cbn [snd fs logged with_PATH environ_PATH default].
    split; [exact Hfs|reflexivity]. }
  destruct (Hone w eq_refl) as [Hfs1 Hp1].
  destruct (Hone _ Hfs1) as [_ Hp2].
  rewrite Hp2, Hp1. reflexivity.
Qed.

Lemma setup_environment_twice_duplicates_witness :
  environ_PATH
    (snd (setup_environment demo_self (snd (setup_environment demo_self demo_world))))
  = Some ("mingw/bin" +:+ ":" +:+ "sdk/native/build-tools/cmake/bin" +:+ ":"
            +:+ "mingw/bin" +:+ ":" +:+ "sdk/native/build-tools/cmake/bin"
            +:+ ":" +:+ "/usr/bin").
Proof.
  apply (setup_environment_twice_duplicates demo_self demo_world
           ["mingw"; "bin"]).
  - vm_compute; reflexivity.
  - reflexivity.
  - discriminate.
  - vm_compute; reflexivity.
Defined.

(** X12: when the SDK's driver directory is missing and no auxiliary
    runtime directory is there either, environment preparation only prints
    its warning: search path and file system stay as they are and nothing
    is raised. *)
Theorem setup_environment_without_tools self w :
  isdir (fs w) (sdk_cmake_bin (config self)) = false ->
  (forall p, build_tool_mingw (config self) = Some p ->
             isdir (fs w) p = false) ->
  setup_environment self w
  = (Ok tt, logged w (EvPrint (MsgWarnNoSdkCmake (sdk_cmake_bin (config self))))).
Proof.
  intros Hcmake Hmingw. rewrite setup_environment_eq. cbv zeta.
  rewrite Hcmake.
  destruct (build_tool_mingw (config self)) as [p|]; [|reflexivity].
  cbn [fs logged]. rewrite (Hmingw p eq_refl), andb_false_r. reflexivity.
Qed.

Lemma setup_environment_without_tools_witness :
  environ_PATH (snd (setup_environment no_prefix_self empty_world)) = None.
Proof.
  rewrite (setup_environment_without_tools no_prefix_self empty_world).
  - reflexivity.
  - vm_compute; reflexivity.
  - intros p Hp. discriminate Hp.
Defined.

(** ** What a run can raise *)

Lemma returns_ret {A} (Q : A -> Prop) E a : Q a -> returns Q E (mret a).
Proof. intros Ha w. exact Ha. Qed.

Lemma returns_raise {A} (Q : A -> Prop) (E : Exn -> Prop) e :
  E e -> returns Q E (raise e).
Proof. intros He w. exact He. Qed.

Lemma returns_bind {A B} (Q1 : A -> Prop) (Q2 : B -> Prop) E
    (m : M A) (k : A -> M B) :
  returns Q1 E m -> (forall a, Q1 a -> returns Q2 E (k a)) ->
  returns Q2 E (m ≫= k).
Proof.
  intros Hm Hk w. unfold mbind, M_bind, bind. specialize (Hm w).
  destruct (m w) as [[a|e] w1]; simpl in *; [by apply Hk|done].
Qed.

Lemma returns_seq {A B} (Q : B -> Prop) E (m : M A) (k : A -> M B) :
  returns (fun _ => True) E m -> (forall a, returns Q E (k a)) ->
  returns Q E (m ≫= k).
Proof. intros Hm Hk. apply (returns_bind (fun _ => True)); auto. Qed.

Lemma returns_for_each {A} E (xs : list A) (body : A -> M unit) :
  (forall x, returns (fun _ => True) E (body x)) ->
  returns (fun _ => True) E (for_each xs body).
Proof.
  intros Hb. induction xs as [|x xs IH]; simpl.
  - by apply returns_ret.
  - apply returns_seq; auto.
Qed.

Lemma returns_get_world E : returns (fun _ => True) E get_world.
Proof. intros w. exact I. Qed.

Lemma returns_print E m : returns (fun _ => True) E (print m).
Proof. intros w. exact I. Qed.

Lemma returns_putenv E v : returns (fun _ => True) E (putenv_PATH v).
Proof. intros w. exact I. Qed.

Lemma returns_makedirs p :
  returns (fun _ => True) stage_exception (os_makedirs p).
Proof. intros w. by destruct p. Qed.

Lemma returns_shutil_copy src dst :
  returns (fun _ => True) stage_exception (shutil_copy src dst).
Proof.
  intros w. unfold shutil_copy.
  destruct (files (fs w) !! src); [destruct (bool_decide _)|]; simpl; try done.
  by destruct (isdir (fs w) src).
Qed.

Lemma returns_join_opt base name :
  returns (fun _ => True) stage_exception (os_path_join_opt base name).
Proof. intros w. by destruct base. Qed.

Lemma returns_subprocess_run outside s cmd cwd :
  returns (fun returncode => returncode = 0%Z) stage_exception
    (subprocess_run outside s cmd cwd).
Proof.
  intros w. unfold subprocess_run.
  destruct (isdir (fs w) cwd); simpl; [|done].
  destruct (exec outside cmd cwd (environ_PATH w) (fs w)) as [rc f].
  destruct (Z.eqb_spec rc 0); simpl; done.
Qed.

Ltac returns_auto :=
  repeat first
    [ progress intros
    | apply returns_get_world
    | apply returns_print
    | apply returns_putenv
    | apply returns_makedirs
    | apply returns_shutil_copy
    | apply returns_join_opt
    | apply returns_for_each
    | apply returns_ret; exact I
    | assumption
    | apply returns_seq
    | match goal with
      | |- returns _ _ (if ?b then _ else _) => destruct b
      | |- returns _ _ (match ?x with _ => _ end) => destruct x
      end ].

Lemma returns_setup_environment self :
  returns (fun _ => True) stage_exception (setup_environment self).
Proof. unfold setup_environment. returns_auto. Qed.

Lemma returns_copy_mingw_dlls self target :
  returns (fun _ => True) stage_exception (copy_mingw_dlls self target).
Proof.
  unfold copy_mingw_dlls, copy_dlls, copy_one_dll, ensure_dir. returns_auto.
Qed.

Lemma returns_copy_openssl_libs self :
  returns (fun _ => True) stage_exception (_copy_openssl_libs self).
Proof. unfold _copy_openssl_libs, copy_one_openssl_lib. returns_auto. Qed.

Lemma returns_stage_method outside self jobs s :
  returns (fun _ => True) stage_exception (stage_method outside self jobs s).
Proof.
  pose proof (returns_setup_environment self) as Henv.
  pose proof (returns_copy_mingw_dlls self) as Hdll.
  pose proof (returns_copy_openssl_libs self) as Hssl.
  destruct s; unfold stage_method, configure_host, build_host, install_host,
    configure_cross, build_cross, install_cross;
    repeat first
      [ apply (returns_bind (fun returncode => returncode = 0%Z));
        [ apply returns_subprocess_run | intros returncode ->; simpl ]
      | apply Hdll
      | apply returns_seq; [first [apply returns_print | assumption] | intros ]
      | progress returns_auto ].
Qed.

Lemma returns_run_op outside self o :
  returns (fun _ => True) stage_exception (run_op outside self o).
Proof.
  pose proof (returns_stage_method outside self) as Hstage.
  destruct o as [s jobs| |jobs|]; simpl.
  - apply Hstage.
  - apply (Hstage 0%Z HostConfigure).
  - unfold build. apply returns_seq; [apply (Hstage jobs HostBuild)|intros _].
    apply returns_seq; [apply (Hstage jobs CrossConfigure)|intros _].
    apply (Hstage jobs CrossBuild).
  - unfold install. apply returns_seq; [apply (Hstage 0%Z HostInstall)|intros _].
    apply (Hstage 0%Z CrossInstall).
Qed.

(** X13: the [RuntimeError] branches of the stage methods cannot be
    reached: with [check=True] a non-zero exit already raises
    [CalledProcessError], so the return code that is tested is always zero.
    No configure, build or install entry point and no stage method ever
    raises [RuntimeError]. *)
Theorem stage_never_raises_runtime_error outside self o w :
  fst (run_op outside self o w) <> Raise RuntimeError.
Proof.
  intros Hr. pose proof (returns_run_op outside self o w) as H.
  rewrite Hr in H. exact H.
Qed.

(** ** Any run stops at the first failure *)

Lemma stage_method_outcome outside self jobs s w :
  match fst (stage_method outside self jobs s w) with
  | Ok _ => calls (snd (stage_method outside self jobs s w)) = calls w ++ [s]
  | Raise _ =>
      calls (snd (stage_method outside self jobs s w)) = calls w
      \/ calls (snd (stage_method outside self jobs s w)) = calls w ++ [s]
  end.
Proof.
  destruct (isdir (fs w) (stage_dir self s)) eqn:Hdir.
  - pose proof (stage_method_started outside self jobs s w Hdir) as H.
    destruct (fst _); auto.
  - destruct (stage_method_missing_dir outside self jobs s w Hdir)
      as (w' & -> & _ & Hc). simpl. by left.
Qed.

Lemma run_stages_calls outside self jobs stages :
  forall w,
  exists l,
    calls (snd (run_stages outside self jobs stages w)) = calls w ++ l
    /\ l `prefix_of` stages
    /\ (fst (run_stages outside self jobs stages w) = Ok tt -> l = stages).
Proof.
  induction stages as [|s rest IH]; intros w.
  - exists []. simpl. rewrite app_nil_r. done.
  - unfold run_stages. simpl. unfold mbind, M_bind, bind.
    pose proof (stage_method_outcome outside self jobs s w) as Hs.
    destruct (stage_method outside self jobs s w) as [[[]|e] w1]; simpl in Hs.
    + destruct (IH w1) as (l & Hl & Hpre & Hok). exists (s :: l).
      fold (run_stages outside self jobs rest w1).
      rewrite Hl, Hs, <- app_assoc. split; [done|].
      split; [by apply prefix_cons|]. intros H. by rewrite Hok.
    + simpl. destruct Hs as [Hs|Hs]; rewrite Hs.
      * exists []. rewrite app_nil_r. split; [done|].
        split; [apply prefix_nil|discriminate].
      * exists [s]. split; [done|]. split; [|discriminate].
        by exists rest.
Qed.

Lemma run_pipeline_as_stages outside self jobs w :
  run_pipeline outside self jobs w
  = run_stages outside self jobs actual_order w.
Proof.
  unfold run_pipeline, configure, build, install, run_stages, actual_order.
  simpl. unfold mbind, M_bind, bind.
  destruct (configure_host outside self w) as [[[]|?] w1]; [|reflexivity].
  destruct (build_host outside self jobs w1) as [[[]|?] w2]; [|reflexivity].
  destruct (configure_cross outside self w2) as [[[]|?] w3]; [|reflexivity].
  destruct (build_cross outside self jobs w3) as [[[]|?] w4]; [|reflexivity].
  destruct (install_host outside self w4) as [[[]|?] w5]; [|reflexivity].
  destruct (install_cross outside self w5) as [[[]|?] w6]; reflexivity.
Qed.

(** X14: whatever the tools do, the stages a run starts are an initial
    segment of HostConfigure, HostBuild, CrossConfigure, CrossBuild,
    HostInstall, CrossInstall, each started at most once and none skipped;
    a run that returns has started all six. *)
Theorem any_run_is_a_prefix_of_the_order outside self jobs w :
  exists l,
    calls (snd (run_pipeline outside self jobs w)) = calls w ++ l
    /\ l `prefix_of` actual_order
    /\ (fst (run_pipeline outside self jobs w) = Ok tt -> l = actual_order).
Proof.
  rewrite run_pipeline_as_stages. apply run_stages_calls.
Qed.

(** ** What a run adds to the log *)

Lemma appends_ret {A} P (a : A) : appends P (mret a).
Proof. intros w. exists []. simpl. by rewrite app_nil_r. Qed.

Lemma appends_raise {A} P e : appends P (@raise A e).
Proof. intros w. exists []. simpl. by rewrite app_nil_r. Qed.

Lemma appends_get_world P : appends P get_world.
Proof. intros w. exists []. simpl. by rewrite app_nil_r. Qed.

Lemma appends_emit (P : Event -> Prop) e : P e -> appends P (emit e).
Proof. intros He w. exists [e]. split; [reflexivity|by constructor]. Qed.

Lemma appends_print (P : Event -> Prop) m :
  P (EvPrint m) -> appends P (print m).
Proof. apply appends_emit. Qed.

Lemma appends_bind {A B} P (m : M A) (k : A -> M B) :
  appends P m -> (forall a, appends P (k a)) -> appends P (m ≫= k).
Proof.
  intros Hm Hk w. unfold mbind, M_bind, bind.
  destruct (Hm w) as (l1 & Hl1 & HP1).
  destruct (m w) as [[a|e] w1]; simpl in *; [|eauto].
  destruct (Hk a w1) as (l2 & Hl2 & HP2).
  exists (l1 ++ l2). rewrite Hl2, Hl1, <- app_assoc.
  split; [done|]. by apply Forall_app.
Qed.

Lemma appends_for_each {A} P (xs : list A) (body : A -> M unit) :
  (forall x, appends P (body x)) -> appends P (for_each xs body).
Proof.
  intros Hb. induction xs as [|x xs IH]; simpl.
  - apply (appends_ret P tt).
  - apply appends_bind; auto.
Qed.

Lemma appends_putenv (P : Event -> Prop) v :
  P (EvPutenvPath v) -> appends P (putenv_PATH v).
Proof. intros He w. exists [EvPutenvPath v]. split; [done|by constructor]. Qed.

Lemma appends_makedirs (P : Event -> Prop) p :
  P (EvMakedirs p) -> appends P (os_makedirs p).
Proof.
  intros He w. destruct p as [|c q]; simpl.
  - exists []. by rewrite app_nil_r.
  - exists [EvMakedirs (c :: q)]. split; [done|by constructor].
Qed.

Lemma appends_shutil_copy (P : Event -> Prop) src dst :
  P (EvCopy src dst) -> appends P (shutil_copy src dst).
Proof.
  intros He w. exists [EvCopy src dst]. split; [|by constructor].
  unfold shutil_copy.
  destruct (files (fs w) !! src); [destruct (bool_decide _)|]; reflexivity.
Qed.

Lemma appends_join_opt P base name : appends P (os_path_join_opt base name).
Proof. destruct base; [apply appends_ret|apply appends_raise]. Qed.

Lemma appends_subprocess_run (P : Event -> Prop) outside s cmd cwd :
  P (EvRun s cmd cwd) -> appends P (subprocess_run outside s cmd cwd).
Proof.
  intros He w. unfold subprocess_run.
  destruct (isdir (fs w) cwd); simpl.
  - destruct (exec outside cmd cwd (environ_PATH w) (fs w)) as [rc f].
    exists [EvRun s cmd cwd]. split; [|by constructor].
    destruct (rc =? 0)%Z; reflexivity.
  - exists []. by rewrite app_nil_r.
Qed.

Ltac appends_auto :=
  repeat first
    [ progress intros
    | apply appends_get_world
    | apply appends_join_opt
    | apply appends_raise
    | apply (appends_ret _ tt)
    | apply appends_ret
    | apply appends_print; done
    | apply appends_putenv; done
    | apply appends_makedirs; done
    | apply appends_shutil_copy; done
    | apply appends_subprocess_run; done
    | apply appends_for_each
    | apply appends_bind
    | match goal with
      | |- appends _ (if ?b then _ else _) => destruct b
      | |- appends _ (match ?x with _ => _ end) => destruct x
      end ].

Lemma appends_stage_method outside self jobs s :
  appends (run_in_place self jobs) (stage_method outside self jobs s).
Proof.
  destruct s; unfold stage_method, configure_host, build_host, install_host,
    configure_cross, build_cross, install_cross, setup_environment,
    copy_mingw_dlls, copy_dlls, copy_one_dll, ensure_dir, _copy_openssl_libs,
    copy_one_openssl_lib; appends_auto.
Qed.

(** X15: every process a run starts is started with the command line of
    its stage and in the build directory of its phase (the host directory
    for the three host stages, the cross directory for the three cross
    stages), and a run only ever adds to the log. *)
Theorem processes_run_in_their_build_dir outside self jobs w :
  exists l,
    log (snd (run_pipeline outside self jobs w)) = log w ++ l
    /\ Forall (run_in_place self jobs) l.
Proof.
  rewrite run_pipeline_as_stages. unfold run_stages.
  apply appends_for_each. apply appends_stage_method.
Qed.

(** ** Build and host-install steps leave the files to the tool *)

Lemma stage_core_fs outside s cmd cwd post w :
  steady post ->
  isdir (fs w) cwd = true ->
  fs (snd (stage_core outside s cmd cwd post w))
  = snd (exec outside cmd cwd (environ_PATH w) (fs w)).
Proof.
  intros Hpost Hdir. unfold stage_core, subprocess_run, mbind, M_bind, bind.
  rewrite Hdir. cbn [negb].
  destruct (exec outside cmd cwd (environ_PATH w) (fs w)) as [rc f].
  cbn [snd]. destruct (rc =? 0)%Z eqn:Hrc; rewrite ?Hrc; [|reflexivity].
  match goal with
  | |- fs (snd (post ?w0)) = _ =>
      destruct (Hpost w0) as (a & _ & Hfs & _); rewrite Hfs
  end.
  reflexivity.
Qed.

Lemma plain_stage_shape outside self jobs s w :
  s = HostBuild \/ s = CrossBuild \/ s = HostInstall ->
  exists w1 post,
    fs w1 = fs w /\ steady post
    /\ stage_method outside self jobs s w
       = stage_core outside s (stage_cmd self jobs s) (stage_dir self s) post w1.
Proof.
  pose proof (steady_setup_environment self) as Henv.
  intros [ -> | [ -> | -> ] ];
    unfold stage_method, stage_cmd, stage_dir, stage_core, build_host,
      build_cross, install_host;
    repeat match goal with
      | |- exists w1 post, _ /\ _ /\ (?m ≫= ?k) ?w0 = _ =>
          let a := fresh "a" in
          let w' := fresh "w" in
          let Hf := fresh "Hf" in
          let Hc := fresh "Hc" in
          let He := fresh "He" in
          first
            [ destruct (steady_step m k w0 (steady_print _))
                as (a & w' & Hf & Hc & He)
            | destruct (steady_step m k w0 Henv) as (a & w' & Hf & Hc & He) ];
          rewrite He; clear He
      end;
    eexists _, _; (split; [|split; [|reflexivity]]); try congruence;
    repeat first [apply steady_print | apply steady_bind; intros].
Qed.

(** X16: the host build, cross build and host install steps perform no
    file operation of their own: when the build directory is missing the
    file system is left as it was, otherwise it is exactly the one the
    child process left behind. *)
Theorem plain_stage_leaves_files_to_the_tool outside self jobs s w :
  s = HostBuild \/ s = CrossBuild \/ s = HostInstall ->
  if isdir (fs w) (stage_dir self s) then
    exists search_path,
      fs (snd (stage_method outside self jobs s w))
      = snd (exec outside (stage_cmd self jobs s) (stage_dir self s)
               search_path (fs w))
  else fs (snd (stage_method outside self jobs s w)) = fs w.
Proof.
  intros Hs. destruct (isdir (fs w) (stage_dir self s)) eqn:Hdir.
  - destruct (plain_stage_shape outside self jobs s w Hs)
      as (w1 & post & Hfs & Hpost & ->).
    exists (environ_PATH w1). rewrite stage_core_fs; [|done|by rewrite Hfs].
    by rewrite Hfs.
  - destruct (stage_method_missing_dir outside self jobs s w Hdir)
      as (w' & -> & Hfs & _). exact Hfs.
Qed.

Lemma plain_stage_leaves_files_to_the_tool_witness :
  fs (snd (stage_method tools_ok demo_self 4 HostBuild empty_world))
  = fs empty_world.
Proof.
  exact (plain_stage_leaves_files_to_the_tool tools_ok demo_self 4 HostBuild
           empty_world (or_introl eq_refl)).
Defined.

(** ** Copying without an auxiliary runtime *)

(** X17: when the configuration has no auxiliary runtime location
    ([get_build_tool_path] gives [None]), the copy still creates the
    destination directory and then raises [TypeError] at the first
    dependency: nothing is copied and no warning is printed. *)
Theorem copy_without_runtime_location_raises self target w :
  build_tool_mingw (config self) = None ->
  copy_mingw_dlls self target w
  = match ensure_dir target w with
    | (Ok _, w1) => (Raise TypeError, w1)
    | failed => failed
    end.
Proof.
  intros Hnone. unfold copy_mingw_dlls, copy_dlls. rewrite Hnone.
  unfold mbind at 1, M_bind at 1, bind at 1.
  destruct (ensure_dir target w) as [[[]|e] w1]; reflexivity.
Qed.

Lemma copy_without_runtime_location_raises_witness :
  copy_mingw_dlls no_prefix_self ["hostp"; "bin"] empty_world
  = (Raise TypeError,
     logged
       (with_fs empty_world
          (with_dirs empty_fs
             (list_to_set (ancestors ["hostp"; "bin"]))))
       (EvMakedirs ["hostp"; "bin"])).
Proof.
  rewrite (copy_without_runtime_location_raises no_prefix_self
             ["hostp"; "bin"] empty_world eq_refl).
  vm_compute. reflexivity.
Defined.

(** ** [clean]: frame and idempotence *)

Lemma rmtree_general p w :
  exists w',
    shutil_rmtree_ignore_errors p w = (Ok tt, w')
    /\ environ_PATH w' = environ_PATH w
    /\ undeletable (fs w') = undeletable (fs w)
    /\ settled (fs w') p
    /\ (forall q, isdir (fs w) q = false -> isdir (fs w') q = false)
    /\ (forall q, below p q = false ->
                  isdir (fs w') q = isdir (fs w) q
                  /\ files (fs w') !! q = files (fs w) !! q)
    /\ (settled (fs w) p -> fs w' = fs w).
Proof.
  unfold shutil_rmtree_ignore_errors, settled.
  destruct (isdir (fs w) p) eqn:Hdir;
    [destruct (bool_decide (p ∈ undeletable (fs w))) eqn:Hdel|];
    cbn [andb negb]; eexists; (split; [reflexivity|]);
    cbn [fs environ_PATH undeletable logged with_fs with_files with_dirs];
    try (repeat split; auto; fail).
  - apply bool_decide_eq_true in Hdel. repeat split; auto.
  - apply bool_decide_eq_false in Hdel.
    split; [done|]. split; [done|]. split; [|split; [|split]].
    + left. unfold isdir. cbn [dirs]. apply bool_decide_eq_false.
      intros [Hb _]%elem_of_filter. by rewrite below_refl in Hb.
    + intros q. unfold isdir. cbn [dirs].
      intros Hq%bool_decide_eq_false. apply bool_decide_eq_false.
      by intros [_ Hin]%elem_of_filter.
    + intros q Hq. split.
      * unfold isdir. cbn [dirs with_files with_dirs]. apply bool_decide_ext.
        rewrite elem_of_filter. split; [by intros [_ ?]|by intros ?; split].
      * cbn [files with_files with_dirs]. apply option_eq. intros text.
        rewrite map_lookup_filter_Some. simpl.
        split; [by intros [? _]|by intros ?; split].
    + intros [Hno|Hund]; [congruence|done].
Qed.

Lemma clean_one_general d w :
  exists w',
    clean_one d w = (Ok tt, w')
    /\ environ_PATH w' = environ_PATH w
    /\ undeletable (fs w') = undeletable (fs w)
    /\ settled (fs w') d
    /\ (forall q, isdir (fs w) q = false -> isdir (fs w') q = false)
    /\ (forall q, below d q = false ->
                  isdir (fs w') q = isdir (fs w) q
                  /\ files (fs w') !! q = files (fs w) !! q)
    /\ (settled (fs w) d -> fs w' = fs w)
    /\ (path_exists (fs w) d = false -> w' = w).
Proof.
  unfold clean_one. unfold_monad.
  destruct (path_exists (fs w) d) eqn:Hex.
  - destruct (rmtree_general d (logged w (EvPrint (MsgRemoving d))))
      as (w1 & -> & Henv & Hund & Hset & Hmono & Hframe & Hsame).
    eexists. split; [reflexivity|]. repeat split; try done.
    + by apply Hframe.
    + by apply Hframe.
  - exists w. repeat split; try done. left.
    unfold path_exists in Hex. by apply orb_false_iff in Hex as [? _].
Qed.

Lemma settled_kept f f' (d : Path) :
  undeletable f' = undeletable f ->
  (forall q, isdir f q = false -> isdir f' q = false) ->
  settled f d -> settled f' d.
Proof.
  unfold settled. intros Hund Hmono [Hno|Hin]; [left; auto|right; congruence].
Qed.

(** X18: [clean] never raises, whatever is or is not on disk, and it
    reaches nothing outside the two build trees: every directory and file
    that is not below one of the two build directories, and the search
    path, are as before. *)
Theorem clean_reaches_only_the_build_trees self w :
  fst (clean self w) = Ok tt
  /\ environ_PATH (snd (clean self w)) = environ_PATH w
  /\ forall p,
       outside_build_trees self p ->
       isdir (fs (snd (clean self w))) p = isdir (fs w) p
       /\ files (fs (snd (clean self w))) !! p = files (fs w) !! p.
Proof.
  unfold clean. simpl for_each. unfold mbind, M_bind, bind.
  destruct (clean_one_general (host_build_dir self) w)
    as (w1 & -> & Henv1 & _ & _ & _ & Hframe1 & _).
  destruct (clean_one_general (cross_build_dir self) w1)
    as (w2 & -> & Henv2 & _ & _ & _ & Hframe2 & _).
  simpl. split; [done|]. split; [congruence|].
  intros p [Hh Hc].
  destruct (Hframe1 p Hh) as [Hd1 Hf1]. destruct (Hframe2 p Hc) as [Hd2 Hf2].
  split; congruence.
Qed.

(** X19: [clean] is idempotent on the file system: a second call removes
    nothing more; and when neither build path exists it does nothing at
    all, not even print. *)
Theorem clean_twice_is_clean_once self w :
  fs (snd (clean self (snd (clean self w)))) = fs (snd (clean self w))
  /\ (path_exists (fs w) (host_build_dir self) = false ->
      path_exists (fs w) (cross_build_dir self) = false ->
      clean self w = (Ok tt, w)).
Proof.
  assert (Hrun : forall w0,
             exists w2,
               clean self w0 = (Ok tt, w2)
               /\ settled (fs w2) (host_build_dir self)
               /\ settled (fs w2) (cross_build_dir self)
               /\ (settled (fs w0) (host_build_dir self) ->
                   settled (fs w0) (cross_build_dir self) ->
                   fs w2 = fs w0)
               /\ (path_exists (fs w0) (host_build_dir self) = false ->
                   path_exists (fs w0) (cross_build_dir self) = false ->
                   w2 = w0)).
  { intros w0. unfold clean. simpl for_each. unfold mbind, M_bind, bind.
    destruct (clean_one_general (host_build_dir self) w0)
      as (w1 & -> & _ & Hund1 & Hset1 & Hmono1 & _ & Hsame1 & Hnop1).
    destruct (clean_one_general (cross_build_dir self) w1)
      as (w2 & -> & _ & Hund2 & Hset2 & Hmono2 & _ & Hsame2 & Hnop2).
    exists w2. split; [reflexivity|].
    split; [by apply (settled_kept (fs w1))|]. split; [done|]. split.
    - intros Hh Hc. rewrite Hsame2.
      + by apply Hsame1.
      + rewrite Hsame1 by done. done.
    - intros Hh Hc. rewrite Hnop2; rewrite Hnop1; done. }
  destruct (Hrun w) as (w2 & Hc1 & Hh & Hc & _ & Hnop).
  rewrite Hc1. cbn [snd].
  destruct (Hrun w2) as (w4 & -> & _ & _ & Hsame & _).
  split; [by apply Hsame|]. intros H1 H2. by rewrite (Hnop H1 H2).
Qed.

(** ** Packaging with a prefix *)

Lemma string_app_assoc (a b c : string) : (a +:+ b) +:+ c = a +:+ b +:+ c.
Proof.
  induction a as [|x a IH]; [reflexivity|].
  change (String x ((a +:+ b) +:+ c) = String x (a +:+ b +:+ c)).
  by rewrite IH.
Qed.

Lemma package_file_name_extension outside self suffix :
  exists stem, package_file_name outside self suffix = stem +:+ "." +:+ suffix.
Proof.
  unfold package_file_name.
  exists ("Qt" +:+ qt_version (config self)
            +:+ "_OHOS" +:+ ohos_version (config self)
            +:+ "_" +:+ build_ohos_abi (config self)
            +:+ "_" +:+ str_lower (system self)
            +:+ "_" +:+ now_stamp outside).
  by rewrite !string_app_assoc.
Qed.

(** X20: with a non-empty install prefix, [pack] does nothing but call the
    archive helper once: on the prefix, towards a file directly under the
    output directory whose name ends in the extension of the format ([zip]
    on Windows, [tar.gz] elsewhere); it returns what the helper returns, so
    an error of the helper reaches the caller unchanged, and the file
    system is the one the helper left. *)
Theorem pack_delegates_to_the_archive_helper outside self prefix w :
  build_prefix (config self) = Some prefix ->
  prefix <> [] ->
  exists stem,
    let fmt := if String.eqb (system self) "Windows" then "zip" else "tar.gz" in
    let dst := get_output_path (config self) ++ [stem +:+ "." +:+ fmt] in
    fst (pack outside self w)
    = fst (create_archive outside prefix dst fmt (fs w))
    /\ fs (snd (pack outside self w))
       = snd (create_archive outside prefix dst fmt (fs w))
    /\ log (snd (pack outside self w)) = log w ++ [EvArchive prefix dst fmt].
Proof.
  intros Hprefix Hne. unfold pack. rewrite Hprefix.
  destruct prefix as [|c cs]; [done|].
  destruct (package_file_name_extension outside self
              (if String.eqb (system self) "Windows" then "zip" else "tar.gz"))
    as [stem Hname].
  exists stem. cbv zeta. rewrite Hname. unfold call_create_archive.
  destruct (create_archive outside _ _ _ _) as [r f]. done.
Qed.

Lemma pack_delegates_to_the_archive_helper_witness :
  exists stem,
    log (snd (pack tools_ok demo_self demo_world))
    = log demo_world
        ++ [EvArchive ["crossp"] (["out"] ++ [stem +:+ "." +:+ "tar.gz"])
              "tar.gz"].
Proof.
  destruct (pack_delegates_to_the_archive_helper tools_ok demo_self ["crossp"]
              demo_world eq_refl ltac:(discriminate)) as (stem & _ & _ & Hlog).
  exists stem. exact Hlog.
Defined.

(** ** Constructing a fetcher *)

(** X21: a fetcher can be constructed exactly when a git executable is
    given or found on the search path; a given one is used as it is,
    without any lookup, and the URL and the file are stored unchanged. *)
Theorem fetcher_init_needs_git which_git url file git :
  (CommitHashFetcher_init which_git url file git
   = Raise (CommitHashFetcherError "Git executable not found in system PATH")
   <-> opt_truthy git = false /\ opt_truthy which_git = false)
  /\ forall self,
       CommitHashFetcher_init which_git url file git = Ok self ->
       repo_url self = url /\ commit_hash_file self = file
       /\ PyStr.truthy (git_exe self) = true
       /\ (if opt_truthy git then Some (git_exe self) = git
           else Some (git_exe self) = which_git).
Proof.
  unfold CommitHashFetcher_init, opt_truthy.
  destruct git as [g|]; [destruct (PyStr.truthy g) eqn:Hg|];
    (destruct which_git as [found|];
     [destruct (PyStr.truthy found) eqn:Hfound|]);
    (split; [split; [try discriminate; done|intros [? ?]; done]|]);
    intros self Hself; try discriminate; injection Hself as <-; done.
Qed.

(** ** OpenSSL libraries at cross install *)

(** X22: without an OpenSSL runtime in the configuration the cross install
    step copies nothing: like the host install step it leaves the file
    system exactly as the child process left it (or untouched when the
    cross build directory is missing). *)
Theorem cross_install_without_openssl_copies_nothing outside self w :
  openssl_runtime (config self) = false ->
  if isdir (fs w) (cross_build_dir self) then
    exists search_path,
      fs (snd (install_cross outside self w))
      = snd (exec outside (install_command self) (cross_build_dir self)
               search_path (fs w))
  else fs (snd (install_cross outside self w)) = fs w.
Proof.
  intros Hno. destruct (isdir (fs w) (cross_build_dir self)) eqn:Hdir.
  - assert (exists w1 post,
               fs w1 = fs w /\ steady post
               /\ install_cross outside self w
                  = stage_core outside CrossInstall (install_command self)
                      (cross_build_dir self) post w1)
      as (w1 & post & Hfs & Hpost & ->).
    { unfold install_cross, stage_core. rewrite Hno.
      repeat match goal with
        | |- exists w1 post, _ /\ _ /\ (?m ≫= ?k) ?w0 = _ =>
            let a := fresh "a" in
            let w' := fresh "w" in
            let Hf := fresh "Hf" in
            let Hc := fresh "Hc" in
            let He := fresh "He" in
            destruct (steady_step m k w0 (steady_print _))
              as (a & w' & Hf & Hc & He);
            rewrite He; clear He
        end.
      eexists _, _. split; [|split; [|reflexivity]]; [congruence|].
      repeat first [apply steady_print | apply (steady_ret tt)
                    | apply steady_bind; intros]. }
    exists (environ_PATH w1). rewrite stage_core_fs; [|done|by rewrite Hfs].
    by rewrite Hfs.
  - destruct (stage_method_missing_dir outside self 0%Z CrossInstall w Hdir)
      as (w' & Hrun & Hfs & _).
    simpl in Hrun. by rewrite Hrun.
Qed.

Lemma cross_install_without_openssl_copies_nothing_witness :
  exists search_path,
    fs (snd (install_cross tools_ok demo_self demo_world))
    = snd (exec tools_ok (install_command demo_self) ["src"; "build"; "release"]
             search_path (fs demo_world)).
Proof.
  exact (cross_install_without_openssl_copies_nothing tools_ok demo_self
           demo_world eq_refl).
Defined.

Lemma copy_one_openssl_lib_ok src target so w w1 :
  isdir (fs w) target = true ->
  copy_one_openssl_lib src target so w = (Ok tt, w1) ->
  (path_exists (fs w) (src ++ [so]) = false
   /\ files (fs w) !! (src ++ [so]) = None
   /\ w1 = logged w (EvPrint (MsgOpensslMissing so)))
  \/ (exists text,
        path_exists (fs w) (src ++ [so]) = true
        /\ files (fs w) !! (src ++ [so]) = Some text
        /\ src <> target
        /\ w1 = logged
                  (with_fs (logged w (EvCopy (src ++ [so]) target))
                     (with_files (fs w)
                        (<[target ++ [so] := text]> (files (fs w)))))
                  (EvPrint (MsgOpensslCopied so))).
Proof.
  intros Htarget.
  unfold copy_one_openssl_lib, shutil_copy, copy_target. unfold_monad.
  destruct (path_exists (fs w) (src ++ [so])) eqn:Hex.
  - destruct (files (fs w) !! (src ++ [so])) as [text|] eqn:Hfile;
      [|discriminate].
    rewrite Htarget, last_last.
    destruct (bool_decide (src ++ [so] = target ++ [so])) eqn:Hsame;
      [discriminate|].
    apply bool_decide_eq_false in Hsame.
    intros [= <-]. right. exists text. repeat split; try done.
    intros ->. by apply Hsame.
  - intros [= <-]. left. repeat split; try done.
    unfold path_exists, isfile in Hex. apply orb_false_iff in Hex as [_ Hex].
    by destruct (files (fs w) !! (src ++ [so])).
Qed.

Lemma openssl_loop_ok src target sos :
  forall w w',
    isdir (fs w) target = true ->
    for_each sos (copy_one_openssl_lib src target) w = (Ok tt, w') ->
    dirs (fs w') = dirs (fs w)
    /\ (forall so, files (fs w') !! (src ++ [so])
                   = files (fs w) !! (src ++ [so]))
    /\ (forall key,
           (forall so, so ∈ sos -> is_Some (files (fs w) !! (src ++ [so])) ->
                       key <> target ++ [so]) ->
           files (fs w') !! key = files (fs w) !! key)
    /\ exists l,
         log w' = log w ++ l
         /\ forall so, so ∈ sos ->
              if path_exists (fs w) (src ++ [so]) then
                exists text,
                  files (fs w) !! (src ++ [so]) = Some text
                  /\ files (fs w') !! (target ++ [so]) = Some text
                  /\ EvPrint (MsgOpensslCopied so) ∈ l
              else EvPrint (MsgOpensslMissing so) ∈ l.
Proof.
  induction sos as [|so0 rest IH]; intros w w' Htarget Hrun.
  - injection Hrun as <-. repeat split; try done.
    exists []. rewrite app_nil_r. split; [done|].
    intros so Hso. by apply elem_of_nil in Hso.
  - simpl in Hrun. apply bind_ok_inv in Hrun as ([] & w1 & Hstep & Hrest).
    apply (copy_one_openssl_lib_ok _ _ _ _ _ Htarget) in Hstep
      as [(Hex0 & Hfile0 & ->)|(text0 & Hex0 & Hfile0 & Hne & ->)].
    + destruct (IH (logged w (EvPrint (MsgOpensslMissing so0))) w' Htarget Hrest)
        as (Hd & Hs & Hframe & l & Hlog & Hall).
      cbn [fs logged] in *.
      split; [done|]. split; [done|]. split.
      { intros key Hkey. apply Hframe. intros so Hso. apply Hkey. by right. }
      exists ([EvPrint (MsgOpensslMissing so0)] ++ l). split.
      { rewrite Hlog. cbn [log logged]. by rewrite <- !app_assoc. }
      intros so Hso.
      destruct (decide (so ∈ rest)) as [Hin|Hnotin].
      * specialize (Hall so Hin).
        destruct (path_exists (fs w) (src ++ [so])).
        -- destruct Hall as (text & ? & ? & ?). exists text.
           repeat split; try done. apply elem_of_app. by right.
        -- apply elem_of_app. by right.
      * apply elem_of_cons in Hso as [->|]; [|done].
        rewrite Hex0. apply elem_of_app. left. left.
    + assert (Hsrc_key : forall so so', src ++ [so] <> target ++ [so']).
      { intros so so' Heq. apply Hne. by apply app_inj_tail in Heq as [? _]. }
      match type of Hrest with
      | for_each _ _ ?w1 = _ => set (w1' := w1) in *
      end.
      assert (Hdirs1 : dirs (fs w1') = dirs (fs w)) by reflexivity.
      assert (Hfiles1 : files (fs w1')
                        = <[target ++ [so0] := text0]> (files (fs w)))
        by reflexivity.
      assert (Hisdir1 : forall p, isdir (fs w1') p = isdir (fs w) p).
      { intros p. unfold isdir. by rewrite Hdirs1. }
      assert (Hsrc1 : forall so, files (fs w1') !! (src ++ [so])
                                 = files (fs w) !! (src ++ [so])).
      { intros so. rewrite Hfiles1. apply lookup_insert_ne.
        intros Heq. by apply (Hsrc_key so so0). }
      assert (Hex1 : forall so, path_exists (fs w1') (src ++ [so])
                                = path_exists (fs w) (src ++ [so])).
      { intros so. unfold path_exists, isfile. by rewrite Hisdir1, Hsrc1. }
      destruct (IH w1' w') as (Hd & Hs & Hframe & l & Hlog & Hall);
        [by rewrite Hisdir1|done|].
      split; [congruence|]. split; [intros so; by rewrite Hs|]. split.
      { intros key Hkey. rewrite Hframe.
        - rewrite Hfiles1. apply lookup_insert_ne. intros <-.
          apply (Hkey so0); [left|by rewrite Hfile0|done].
        - intros so Hso Hsome. apply Hkey; [by right|by rewrite <- Hsrc1]. }
      exists ([EvCopy (src ++ [so0]) target; EvPrint (MsgOpensslCopied so0)]
                ++ l).
      split.
      { rewrite Hlog. subst w1'. cbn [log logged with_fs].
        by rewrite <- !app_assoc. }
      intros so Hso.
      destruct (decide (so ∈ rest)) as [Hin|Hnotin].
      * specialize (Hall so Hin). rewrite Hex1 in Hall.
        destruct (path_exists (fs w) (src ++ [so])).
        -- destruct Hall as (text & Ht & ? & ?). exists text.
           rewrite <- Hsrc1. repeat split; try done.
           apply elem_of_app. by right.
        -- apply elem_of_app. by right.
      * apply elem_of_cons in Hso as [->|]; [|done].
        rewrite Hex0. exists text0. split; [done|]. split.
        -- rewrite Hframe.
           ++ rewrite Hfiles1. apply lookup_insert_eq.
           ++ intros so Hsorest _ Heq.
              apply app_inj_tail in Heq as [_ ->]. done.
        -- apply elem_of_app. left. right. left.
Qed.

(** X23: copying the OpenSSL libraries is best-effort as well.  When the
    copy into an existing [lib] directory of the install prefix returns
    normally, every one of the four libraries that exists under the OpenSSL
    [lib] directory is a regular file that now lies under the prefix's
    [lib] directory with the same content and has been reported as copied;
    every absent one has only been reported as not found, nothing being
    put in its place; no directory has been created. *)
Theorem copy_openssl_libs_best_effort self prefix w w' :
  build_prefix (config self) = Some prefix ->
  isdir (fs w) (prefix ++ ["lib"]) = true ->
  _copy_openssl_libs self w = (Ok tt, w') ->
  dirs (fs w') = dirs (fs w)
  /\ exists l,
       log w' = log w ++ l
       /\ forall so,
            so ∈ openssl_sos ->
            if path_exists (fs w) (path_openssl (config self) ++ ["lib"] ++ [so])
            then
              exists text,
                files (fs w) !! (path_openssl (config self) ++ ["lib"] ++ [so])
                = Some text
                /\ files (fs w') !! (prefix ++ ["lib"] ++ [so]) = Some text
                /\ EvPrint (MsgOpensslCopied so) ∈ l
            else
              EvPrint (MsgOpensslMissing so) ∈ l
              /\ files (fs w') !! (prefix ++ ["lib"] ++ [so])
                 = files (fs w) !! (prefix ++ ["lib"] ++ [so]).
Proof.
  intros Hprefix Hlib. unfold _copy_openssl_libs. rewrite Hprefix.
  cbn [os_path_join_opt]. unfold mbind at 1, M_bind at 1, bind at 1.
  cbn [mret M_ret ret]. intros Hrun.
  destruct (openssl_loop_ok _ _ _ _ _ Hlib Hrun)
    as (Hd & _ & Hframe & l & Hlog & Hall).
  split; [done|]. exists l. split; [done|].
  intros so Hso. specialize (Hall so Hso). rewrite <- !app_assoc in Hall.
  destruct (path_exists (fs w) (path_openssl (config self) ++ ["lib"] ++ [so]))
    eqn:Hex; [exact Hall|].
  split; [exact Hall|]. rewrite !app_assoc. apply Hframe.
  intros so' Hso' Hsome Heq. apply app_inj_tail in Heq as [_ <-].
  unfold path_exists, isfile in Hex. apply orb_false_iff in Hex as [_ Hex].
  rewrite <- app_assoc in Hsome. destruct Hsome as [text Ht].
  by rewrite Ht in Hex.
Qed.

Lemma copy_openssl_libs_best_effort_witness :
  files (fs (snd (_copy_openssl_libs demo_self openssl_world)))
    !! ["crossp"; "lib"; "libssl.so"]
  = Some "tls".
Proof.
  destruct (copy_openssl_libs_best_effort demo_self ["crossp"] openssl_world
              (snd (_copy_openssl_libs demo_self openssl_world)))
    as (_ & l & _ & Hall).
  - reflexivity.
  - vm_compute; reflexivity.
  - vm_compute; reflexivity.
  - assert ("libssl.so" ∈ openssl_sos) as Hin by (right; right; left).
    specialize (Hall "libssl.so" Hin).
    assert (path_exists (fs openssl_world)
              (path_openssl (config demo_self) ++ ["lib"] ++ ["libssl.so"])
            = true) as Hex by (vm_compute; reflexivity).
    rewrite Hex in Hall. destruct Hall as (text & Htext & Hcopied & _).
    assert (text = "tls") as ->.
    { vm_compute in Htext. by injection Htext. }
    exact Hcopied.
Defined.
